(** * Block validation of go-usechain: [core/block_validator.go]

    A shallow embedding of the block validator ([ValidateBody],
    [ValidateState], [ValidateMiner]), of the gas-limit policy
    ([CalcGasLimit]) and of the signature check ([VerifySig]), together
    with the properties of the validation pipeline.

    Go's fixed-width integers are integers of [Z] with the wrap-around
    written out; [*big.Int] values are plain integers of [Z]; byte slices
    are lists of [Byte.byte]. *)

From Stdlib Require Import ZArith Lia Bool List.
From Stdlib Require Import Strings.Byte Strings.Ascii Strings.String.
From stdpp Require Import base decidable countable gmap.

Local Open Scope Z_scope.

(** ** Machine integers and [math/big] conversions *)

Module GoInt.

Definition two64 : Z := 2 ^ 64.
Definition two63 : Z := 2 ^ 63.

(** A value of Go's [uint64]. *)
Definition is_uint64 (x : Z) : Prop := 0 <= x < two64.

(** A value of Go's [int64]. *)
Definition is_int64 (x : Z) : Prop := - two63 <= x < two63.

(** The result of an [uint64] operation whose exact value is [x]. *)
Definition u64 (x : Z) : Z := x mod two64.

(** The conversion [int64(x)] of a 64-bit pattern: two's complement. *)
Definition i64 (x : Z) : Z :=
  let r := x mod two64 in
  if r <? two63 then r else r - two64.

(** [big.Int.Uint64]: the low 64 bits of the magnitude. *)
Definition Uint64 (x : Z) : Z := Z.abs x mod two64.

(** [big.Int.Int64]: the low 64 bits of the magnitude read as an
    [int64], negated (in [int64]) when the number is negative. *)
Definition Int64 (x : Z) : Z :=
  let v := i64 (Z.abs x mod two64) in
  if x <? 0 then i64 (- v) else v.

(** [big.Int.Cmp]. *)
Definition Cmp (x y : Z) : Z :=
  match x ?= y with
  | Lt => -1
  | Eq => 0
  | Gt => 1
  end.

End GoInt.

Import GoInt.

(** ** Protocol parameters used by the gas-limit policy *)

(** [params.GasLimitBoundDivisor] is declared in package [params]; the
    comments of [CalcGasLimit] give its value ("/ 1024"). *)
Definition GasLimitBoundDivisor : Z := 1024.

(** [params.MinGasLimit] and [params.TargetGasLimit] (a variable set from
    the node's configuration) are declared in package [params]. *)
Record GasParams : Type := mkGasParams {
  MinGasLimit : Z;
  TargetGasLimit : Z
}.

(** The values of the go-ethereum line this code derives from. *)
Definition default_gas_params : GasParams :=
  {| MinGasLimit := 5000; TargetGasLimit := 4712388 |}.

(** ** Package [common]: bytes, hashes and addresses *)

Definition bytes : Type := list byte.

#[global] Instance byte_eq_dec : EqDecision byte := Byte.byte_eq_dec.

#[global] Program Instance byte_countable : Countable byte :=
  inj_countable Byte.to_N Byte.of_N _.
Next Obligation. intros b. apply Byte.of_to_N. Qed.

Definition HashLength : nat := 32.
Definition AddressLength : nat := 20.

(** [common.Hash] is [[32]byte] and [common.Address] is [[20]byte]; both
    are kept as the list of their bytes. *)
Definition Hash : Type := bytes.
Definition Address : Type := bytes.
(** [types.Bloom] is [[256]byte]. *)
Definition BloomBytes : Type := bytes.

(** The slice expressions [b[lo:]] and [b[:hi]]. A slice is modelled with
    a capacity equal to its length, so an expression out of range is a
    run-time panic ([None]). *)
Definition slice_from (lo : nat) (b : bytes) : option bytes :=
  if (lo <=? length b)%nat then Some (drop lo b) else None.

Definition slice_to (hi : nat) (b : bytes) : option bytes :=
  if (hi <=? length b)%nat then Some (take hi b) else None.

(** [SetBytes]: a longer input is cropped from the left, a shorter one is
    copied to the right end of the zero array. *)
Definition set_bytes (width : nat) (b : bytes) : bytes :=
  let b' := if (width <? length b)%nat then drop (length b - width) b else b in
  replicate (width - length b') x00 ++ b'.

(** Modelled from the spec: [common.BytesToHash] is declared outside
    src/; the trailing 32 bytes of the input make the 32-byte digest. *)
Definition BytesToHash (b : bytes) : Hash := set_bytes HashLength b.

(** Modelled from the spec: [common.BytesToAddress] is declared outside
    src/; it is the 20-byte analogue of [BytesToHash]. *)
Definition BytesToAddress (b : bytes) : Address := set_bytes AddressLength b.

(** The zero value of [common.Address]. *)
Definition zero_address : Address := replicate AddressLength x00.

(** The hexadecimal digit of a value below 16, in lower case. *)
Definition hex_digit (n : N) : ascii :=
  match n with
  | 0%N => "0" | 1%N => "1" | 2%N => "2" | 3%N => "3"
  | 4%N => "4" | 5%N => "5" | 6%N => "6" | 7%N => "7"
  | 8%N => "8" | 9%N => "9" | 10%N => "a" | 11%N => "b"
  | 12%N => "c" | 13%N => "d" | 14%N => "e" | _ => "f"
  end%char.

(** The value of a hexadecimal digit. *)
Definition hex_value (c : ascii) : N :=
  let n := N_of_ascii c in
  if (n <? 58)%N then (n - 48)%N else (n - 87)%N.

(** Two digits for each byte, the high half first. *)
Fixpoint hex_encode (b : bytes) : string :=
  match b with
  | [] => EmptyString
  | x :: r =>
      String (hex_digit (Byte.to_N x / 16))
        (String (hex_digit (Byte.to_N x mod 16)) (hex_encode r))
  end.

(** Modelled from the spec: the method [String] of [common.Hash] is
    declared outside src/; the QR gate compares two digests for exact
    equality through it, and it prints the 32 bytes in hexadecimal behind
    the prefix 0x. *)
Definition Hash_String (h : Hash) : string :=
  String "0"%char (String "x"%char (hex_encode h)).

(** The constants of package [common] read by [ValidateMiner], which are
    declared outside src/: the least time between two blocks, the length
    of a rotation slot, and the miner QR signature that stands for the
    parent of block 1. *)
Record CommonConsts : Type := mkCommonConsts {
  BlockInterval : Z;
  BlockSlot : Z;
  GenesisMinerQrSignature : bytes
}.

(** [common.Big1]. *)
Definition Big1 : Z := 1.

(** ** Package [types]: headers and blocks *)

Record Header : Type := mkHeader {
  ParentHash : Hash;
  UncleHash : Hash;
  Coinbase : Address;
  PrimaryMiner : Address;
  Root : Hash;
  TxHash : Hash;
  ReceiptHash : Hash;
  Bloom : BloomBytes;
  DifficultyLevel : Z;
  Number : Z;
  GasLimit : Z;
  GasUsed : Z;
  Time : Z;
  MinerQrSignature : bytes
}.

(** A header read by the code as it is typed in Go: the gas fields are
    [uint64]. *)
Definition header_wf (h : Header) : Prop :=
  is_uint64 (GasLimit h) /\ is_uint64 (GasUsed h).

(** The data and the functions of packages [types] and [state] that the
    validator only passes around or calls: transactions, receipts, the
    state database, the hash of a header, the commitments of the uncle,
    transaction and receipt lists, the bloom of the receipts, and the
    intermediate state root. *)
Class Externals : Type := {
  Transaction : Type;
  Receipt : Type;
  StateDB : Type;
  HeaderHash : Header -> Hash;
  CalcUncleHash : list Header -> Hash;
  DeriveShaTxs : list Transaction -> Hash;
  DeriveShaReceipts : list Receipt -> Hash;
  CreateBloom : list Receipt -> BloomBytes;
  IntermediateRoot : StateDB -> bool -> Hash
}.

Record Block `{Externals} : Type := mkBlock {
  header : Header;
  uncles : list Header;
  transactions : list Transaction
}.

Module Blk.
Section Accessors.
Context `{Externals}.

Definition Header_ (b : Block) : Header := header b.
Definition Hash_ (b : Block) : Hash := HeaderHash (header b).
Definition ParentHash_ (b : Block) : Hash := ParentHash (header b).
Definition NumberU64 (b : Block) : Z := Uint64 (Number (header b)).
Definition Time_ (b : Block) : Z := Time (header b).
Definition Coinbase_ (b : Block) : Address := Coinbase (header b).
Definition MinerQrSignature_ (b : Block) : bytes := MinerQrSignature (header b).
Definition GasUsed_ (b : Block) : Z := GasUsed (header b).
Definition GasLimit_ (b : Block) : Z := GasLimit (header b).
Definition Uncles (b : Block) : list Header := uncles b.
Definition Transactions (b : Block) : list Transaction := transactions b.

End Accessors.
End Blk.

(** ** The gas-limit policy *)

Section GasLimit.
Context `{Externals} (gp : GasParams).

(** [contrib = (parentGasUsed * 3 / 2) / 1024], in [uint64]. *)
Definition gas_contrib (parent : Block) : Z :=
  u64 (Blk.GasUsed_ parent + Blk.GasUsed_ parent / 2) / GasLimitBoundDivisor.

(** [decay = parentGasLimit / 1024 - 1], in [uint64]. *)
Definition gas_decay (parent : Block) : Z :=
  u64 (Blk.GasLimit_ parent / GasLimitBoundDivisor - 1).

(** [limit := parent.GasLimit() - decay + contrib], in [uint64]. *)
Definition gas_lowered (parent : Block) : Z :=
  u64 (u64 (Blk.GasLimit_ parent - gas_decay parent) + gas_contrib parent).

(** [limit = parent.GasLimit() + decay], in [uint64]. *)
Definition gas_raised (parent : Block) : Z :=
  u64 (Blk.GasLimit_ parent + gas_decay parent).

Definition CalcGasLimit (parent : Block) : Z :=
  let limit := gas_lowered parent in
  let limit := if limit <? MinGasLimit gp then MinGasLimit gp else limit in
  if limit <? TargetGasLimit gp then
    let limit := gas_raised parent in
    if limit >? TargetGasLimit gp then TargetGasLimit gp else limit
  else limit.

End GasLimit.

(** ** Errors *)

(** The error variables shared by the packages: [ErrKnownBlock] of
    package [core], [ErrUnknownAncestor] and [ErrPrunedAncestor] of
    package [consensus]. *)
Inductive sentinel : Type :=
  | KnownBlock
  | UnknownAncestor
  | PrunedAncestor.

(** An error value made by a collaborator: one of the shared variables, or
    a value of its own with its message. A collaborator cannot return a
    value that [fmt.Errorf] makes inside the validator. *)
Inductive foreign_error : Type :=
  | ForeignSentinel (s : sentinel)
  | ForeignOther (msg : string).

(** The values of Go's [error] that the validator returns. Those built by
    [fmt.Errorf] are kept with the values their message prints. *)
Inductive error : Type :=
  | Sentinel (s : sentinel)
  (* "uncle root hash mismatch: have %x, want %x" *)
  | UncleRootMismatch (have want : Hash)
  (* "transaction root hash mismatch: have %x, want %x" *)
  | TxRootMismatch (have want : Hash)
  (* "invalid gas used (remote: %d local: %d)" *)
  | GasUsedMismatch (remote local : Z)
  (* "invalid bloom (remote: %x  local: %x)" *)
  | BloomMismatch (remote local : BloomBytes)
  (* "invalid receipt root hash (remote: %x local: %x)" *)
  | ReceiptRootMismatch (remote local : Hash)
  (* "invalid merkle root (remote: %x local: %x)" *)
  | StateRootMismatch (remote local : Hash)
  (* "Block time slot should be more than five seconds" *)
  | BlockTooFast
  (* "miner address is being punished, invalid miner" *)
  | MinerPunished
  (* "miner address needs to register as a miner, invalid miner" *)
  | MinerNotRegistered
  (* "invalid minerQrSignature length" *)
  | QrLengthInvalid
  (* "invalid minerQrSignature, qr is not correct" *)
  | QrMismatch
  (* "invalid minerQrSignature" *)
  | InvalidQrSignature
  (* "invalid miner" *)
  | InvalidMiner
  (* "invalid primaryMiner: have %s, want %s" *)
  | PrimaryMinerMismatch (have want : Address)
  (* "invalid difficultyLevel: have %v, want 0" and
     "invalid difficultyLevel: have %v, want %v" *)
  | DifficultyLevelMismatch (have want : Z)
  | Other (msg : string).

Definition ErrKnownBlock : error := Sentinel KnownBlock.
Definition ErrUnknownAncestor : error := Sentinel UnknownAncestor.
Definition ErrPrunedAncestor : error := Sentinel PrunedAncestor.

(** An error of a collaborator, returned unchanged. *)
Definition surfaced (e : foreign_error) : error :=
  match e with
  | ForeignSentinel s => Sentinel s
  | ForeignOther msg => Other msg
  end.

(** A call either returns or panics. *)
Inductive outcome (A : Type) : Type :=
  | Returns (a : A)
  | Panics.

Arguments Returns {A} a.
Arguments Panics {A}.

(** ** The chain and the consensus engine *)

(** Modelled from the spec: the type [BlockChain] and its methods
    [HasBlock], [HasBlockAndState] and [State] are declared outside src/.
    The block index maps a hash and a number to the state root of the
    stored block; a block has state when its root is among the states the
    chain still holds; [State] hands out the current state or an error. *)
Record BlockChain `{Externals} : Type := mkBlockChain {
  chain_index : gmap (Hash * Z) Hash;
  chain_states : gset Hash;
  chain_current : option StateDB * option foreign_error
}.

Section Chain.
Context `{Externals}.

Definition HasBlock (bc : BlockChain) (hash : Hash) (number : Z) : bool :=
  bool_decide (is_Some (chain_index bc !! (hash, number))).

Definition HasBlockAndState (bc : BlockChain) (hash : Hash) (number : Z) : bool :=
  match chain_index bc !! (hash, number) with
  | Some root => bool_decide (root ∈ chain_states bc)
  | None => false
  end.

Definition State (bc : BlockChain) : option StateDB * option foreign_error :=
  chain_current bc.

End Chain.

(** [consensus.Engine], an interface: the validator calls [VerifyUncles]. *)
Class Engine `{Externals} : Type := {
  VerifyUncles : BlockChain -> Block -> option StateDB -> option foreign_error
}.

(** [params.ChainConfig], through the one method the validator calls. *)
Record ChainConfig : Type := mkChainConfig {
  IsEIP158 : Z -> bool
}.

Record BlockValidator `{Externals} : Type := mkBlockValidator {
  config : ChainConfig;
  bc : BlockChain;
  engine : Engine
}.

(** ** [ValidateBody] *)

Section Body.
Context `{Externals}.

(** The checks that follow the linkage checks: uncles, then the two
    roots. *)
Definition validate_body_content (v : BlockValidator) (block : Block) : option error :=
  let header := Blk.Header_ block in
  let '(state, _) := State (bc v) in
  match @VerifyUncles _ (engine v) (bc v) block state with
  | Some err => Some (surfaced err)
  | None =>
      let hash := CalcUncleHash (Blk.Uncles block) in
      if negb (bool_decide (hash = UncleHash header)) then
        Some (UncleRootMismatch hash (UncleHash header))
      else
        let hash := DeriveShaTxs (Blk.Transactions block) in
        if negb (bool_decide (hash = TxHash header)) then
          Some (TxRootMismatch hash (TxHash header))
        else None
  end.

(** [block.NumberU64()-1], in [uint64]. *)
Definition parent_number (block : Block) : Z := u64 (Blk.NumberU64 block - 1).

Definition ValidateBody (v : BlockValidator) (block : Block) : option error :=
  if HasBlockAndState (bc v) (Blk.Hash_ block) (Blk.NumberU64 block) then
    Some ErrKnownBlock
  else if negb (HasBlockAndState (bc v) (Blk.ParentHash_ block)
                  (parent_number block)) then
    if negb (HasBlock (bc v) (Blk.ParentHash_ block) (parent_number block)) then
      Some ErrUnknownAncestor
    else Some ErrPrunedAncestor
  else validate_body_content v block.

(** The linkage checks pass: the block is not known and its parent has
    state. *)
Definition linkable (v : BlockValidator) (block : Block) : Prop :=
  HasBlockAndState (bc v) (Blk.Hash_ block) (Blk.NumberU64 block) = false
  /\ HasBlockAndState (bc v) (Blk.ParentHash_ block) (parent_number block) = true.

End Body.

(** ** [ValidateState] *)

Section StateValidation.
Context `{Externals}.

Definition ValidateState (v : BlockValidator) (block parent : Block)
    (statedb : StateDB) (receipts : list Receipt) (usedGas : Z) : option error :=
  let header := Blk.Header_ block in
  if negb (Blk.GasUsed_ block =? usedGas) then
    Some (GasUsedMismatch (Blk.GasUsed_ block) usedGas)
  else
    let rbloom := CreateBloom receipts in
    if negb (bool_decide (rbloom = Bloom header)) then
      Some (BloomMismatch (Bloom header) rbloom)
    else
      let receiptSha := DeriveShaReceipts receipts in
      if negb (bool_decide (receiptSha = ReceiptHash header)) then
        Some (ReceiptRootMismatch (ReceiptHash header) receiptSha)
      else
        let root := IntermediateRoot statedb (IsEIP158 (config v) (Number header)) in
        if negb (bool_decide (Root header = root)) then
          Some (StateRootMismatch (Root header) root)
        else None.

End StateValidation.

(** ** Package [crypto] and [VerifySig] *)

(** The functions of package [crypto] called by [VerifySig]. [Ecrecover]
    returns a public key and an error; [ToECDSAPub] returns a pointer,
    which may be nil. *)
Class Crypto : Type := {
  PublicKey : Type;
  Ecrecover : bytes -> bytes -> bytes * option foreign_error;
  ToECDSAPub : bytes -> option PublicKey;
  VerifySignature : bytes -> bytes -> bytes -> bool;
  PubkeyToAddress : PublicKey -> Address
}.

Section Signature.
Context `{Crypto}.

(** The message written by [log.Error] is not part of the result. The
    slice [sig[:64]] is taken before [VerifySignature] is called, and the
    pointer [pubKey] is read only when [VerifySignature] holds. *)
Definition VerifySig (sig : bytes) (hash : Hash) (miner : Address) : outcome bool :=
  let '(pub, err) := Ecrecover hash sig in
  match err with
  | Some _ => Returns false
  | None =>
      let pubKey := ToECDSAPub pub in
      match slice_to 64 sig with
      | None => Panics
      | Some sig64 =>
          if VerifySignature pub hash sig64 then
            match pubKey with
            | None => Panics
            | Some key => Returns (bool_decide (PubkeyToAddress key = miner))
            end
          else Returns false
      end
  end.

End Signature.

(** ** Package [minerlist] and [ValidateMiner] *)

(** Modelled from the spec: the constant [minerlist.PreQrLength] is
    declared outside src/; a miner QR signature is a 65-byte signature
    followed by a 32-byte digest. *)
Definition PreQrLength : nat := 97.

(** The functions of package [minerlist] called by [ValidateMiner]. *)
Class MinerList `{Externals} : Type := {
  ReadMinerNum : StateDB -> Z;
  IsMiner : StateDB -> Address -> Z -> Z -> bool * Z;
  CalQrOrIdNext : bytes -> Z -> bytes -> Hash * option foreign_error;
  IsValidMiner :
    StateDB -> Address -> Address -> bytes -> Z -> Z -> Z -> bool * Z * Z;
  ReadMinerAddress : StateDB -> Z -> bytes
}.

(** [big.Int.Div]: Euclidean division, a panic on a zero divisor. *)
Definition big_Div (x y : Z) : outcome Z :=
  if y =? 0 then Panics else Returns (Z.sgn y * (x / Z.abs y)).

Section Miner.
Context `{Externals} `{!MinerList} `{!Crypto} (cc : CommonConsts).

(** The signature of the previous round handed to [CalQrOrIdNext] and to
    [IsValidMiner]. *)
Definition preQrSignature_of (header : Header) (parent : Block) : bytes :=
  if Cmp (Number header) Big1 =? 0 then GenesisMinerQrSignature cc
  else Blk.MinerQrSignature_ parent.

(** The call that computes the expected QR value. *)
Definition expected_qr (header : Header) (parent : Block)
    : Hash * option foreign_error :=
  CalQrOrIdNext (Blk.Coinbase_ parent) (Number header)
    (preQrSignature_of header parent).

(** The check of the miner QR signature of the header, made for the
    blocks after the first. *)
Definition qr_gate (header : Header) (qr : Hash) : outcome (option error) :=
  let minerQrSignature := MinerQrSignature header in
  if Int64 (Number header) >? 1 then
    if negb (length minerQrSignature =? PreQrLength)%nat then
      Returns (Some QrLengthInvalid)
    else
      match slice_from 65 minerQrSignature with
      | None => Panics
      | Some tail =>
          let qrtemp := BytesToHash tail in
          if negb (String.eqb (Hash_String qr) (Hash_String qrtemp)) then
            Returns (Some QrMismatch)
          else
            match slice_to 65 minerQrSignature with
            | None => Panics
            | Some sig =>
                match VerifySig sig qr (Coinbase header) with
                | Panics => Panics
                | Returns false => Returns (Some InvalidQrSignature)
                | Returns true => Returns None
                end
            end
      end
  else Returns None.

(** The checks that follow the QR gate: validity of the miner, primary
    miner, difficulty level. *)
Definition level_gate (header : Header) (parent : Block) (statedb : StateDB)
    (totalMinerNum n : Z) : option error :=
  let '(isValidMiner, level, preMinerid) :=
    IsValidMiner statedb (Coinbase header) (Blk.Coinbase_ parent)
      (preQrSignature_of header parent) (Number header) totalMinerNum n in
  if negb isValidMiner then Some InvalidMiner
  else
    let preMiner :=
      if negb (Int64 totalMinerNum =? 0) then
        BytesToAddress (ReadMinerAddress statedb preMinerid)
      else zero_address in
    if negb (bool_decide (PrimaryMiner header = preMiner))
       && negb (Int64 totalMinerNum =? 0) then
      Some (PrimaryMinerMismatch (PrimaryMiner header) preMiner)
    else if Cmp (Number header) Big1 =? 0 then
      if negb (Int64 (DifficultyLevel header) =? 0) then
        Some (DifficultyLevelMismatch (DifficultyLevel header) 0)
      else None
    else
      if level >? Int64 (DifficultyLevel header) then
        Some (DifficultyLevelMismatch (DifficultyLevel header) level)
      else None.

(** From the QR gate on. *)
Definition qr_stage (header : Header) (parent : Block) (statedb : StateDB)
    (totalMinerNum n : Z) (qr : Hash) : outcome (option error) :=
  match qr_gate header qr with
  | Panics => Panics
  | Returns (Some err) => Returns (Some err)
  | Returns None => Returns (level_gate header parent statedb totalMinerNum n)
  end.

(** From the lookup of the registry on: the miner is registered and not
    punished, the rotation counter, the expected QR value. *)
Definition eligibility_stage (header : Header) (parent : Block)
    (statedb : StateDB) (tstampSub : Z) : outcome (option error) :=
  let totalMinerNum := ReadMinerNum statedb in
  let '(isMiner, flag) :=
    IsMiner statedb (Coinbase header) totalMinerNum (Number header) in
  if negb isMiner then
    if flag =? 1 then Returns (Some MinerPunished)
    else Returns (Some MinerNotRegistered)
  else
    match big_Div tstampSub (BlockSlot cc) with
    | Panics => Panics
    | Returns n =>
        match expected_qr header parent with
        | (_, Some err) => Returns (Some (surfaced err))
        | (qr, None) => qr_stage header parent statedb totalMinerNum n qr
        end
    end.

Definition ValidateMiner (block parent : Block) (statedb : StateDB)
    : outcome (option error) :=
  let header := Blk.Header_ block in
  let tstampParent := Blk.Time_ parent in
  let tstampHead := Time header in
  let tstampSub := tstampHead - tstampParent in
  if Int64 tstampSub <? i64 (BlockInterval cc) then Returns (Some BlockTooFast)
  else eligibility_stage header parent statedb tstampSub.

(** The block comes to the QR gate with rotation counter [n] and expected
    QR value [qr]: the time slot is long enough, the miner is registered
    and not punished, and the QR computation returns no error. *)
Definition reaches_qr_gate (block parent : Block) (statedb : StateDB)
    (n : Z) (qr : Hash) : Prop :=
  let header := Blk.Header_ block in
  let tstampSub := Time header - Blk.Time_ parent in
  (Int64 tstampSub <? i64 (BlockInterval cc)) = false
  /\ fst (IsMiner statedb (Coinbase header) (ReadMinerNum statedb)
            (Number header)) = true
  /\ big_Div tstampSub (BlockSlot cc) = Returns n
  /\ expected_qr header parent = (qr, None).

(** The block comes to the check of the difficulty level with the computed
    level [level]: it passes the QR gate, the miner is valid, and the
    primary miner is the expected one. *)
Definition reaches_level_check (block parent : Block) (statedb : StateDB)
    (level : Z) : Prop :=
  let header := Blk.Header_ block in
  exists n qr preMinerid,
    reaches_qr_gate block parent statedb n qr
    /\ qr_gate header qr = Returns None
    /\ IsValidMiner statedb (Coinbase header) (Blk.Coinbase_ parent)
         (preQrSignature_of header parent) (Number header)
         (ReadMinerNum statedb) n = (true, level, preMinerid)
    /\ (Int64 (ReadMinerNum statedb) = 0
        \/ PrimaryMiner header
           = BytesToAddress (ReadMinerAddress statedb preMinerid)).

End Miner.

(** ** [NewBlockValidator] *)

Definition NewBlockValidator `{Externals} (config : ChainConfig)
    (blockchain : BlockChain) (engine : Engine) : BlockValidator :=
  {| config := config; engine := engine; bc := blockchain |}.

(** ** Blocks that differ in one field *)

(** The header with another miner QR signature. *)
Definition header_with_qr_signature (h : Header) (qrsig : bytes) : Header := {|
  ParentHash := ParentHash h;
  UncleHash := UncleHash h;
  Coinbase := Coinbase h;
  PrimaryMiner := PrimaryMiner h;
  Root := Root h;
  TxHash := TxHash h;
  ReceiptHash := ReceiptHash h;
  Bloom := Bloom h;
  DifficultyLevel := DifficultyLevel h;
  Number := Number h;
  GasLimit := GasLimit h;
  GasUsed := GasUsed h;
  Time := Time h;
  MinerQrSignature := qrsig
|}.

(** The block with another miner QR signature in its header. *)
Definition with_qr_signature `{Externals} (b : Block) (qrsig : bytes) : Block :=
  {| header := header_with_qr_signature (header b) qrsig;
     uncles := uncles b;
     transactions := transactions b |}.

(** ** A closed instance

    Small collaborators on which the validator runs by computation: a
    state database that is the list of the registered miners, constant
    commitments, a QR function that reads the head of the signature it is
    given, and a signature scheme whose signatures start with the address
    of the signer. *)

Module Sample.

Definition number_hash (n : Z) : Hash :=
  BytesToHash (match Byte.of_N (Z.to_N (n mod 256)) with
               | Some b => [b]
               | None => []
               end).

Definition empty_root : Hash := BytesToHash [].

Definition ext : Externals := {|
  Transaction := nat;
  Receipt := nat;
  StateDB := list Address;
  HeaderHash := fun h => number_hash (Number h);
  CalcUncleHash := fun _ => empty_root;
  DeriveShaTxs := fun _ => empty_root;
  DeriveShaReceipts := fun _ => empty_root;
  CreateBloom := fun _ => replicate 256 x00;
  IntermediateRoot := fun _ _ => empty_root
|}.

#[local] Existing Instance ext.

Definition minerlist : @MinerList ext := {|
  ReadMinerNum := fun st => Z.of_nat (length (st : list Address));
  IsMiner := fun st addr _ _ => (bool_decide (addr ∈ (st : list Address)), 0);
  CalQrOrIdNext := fun _ _ pre => (BytesToHash (take HashLength pre), None);
  IsValidMiner := fun _ _ _ _ _ _ n => (true, n, 0);
  ReadMinerAddress := fun st id => default [] ((st : list Address) !! Z.to_nat id)
|}.

Definition crypto : Crypto := {|
  PublicKey := bytes;
  Ecrecover := fun _ sig =>
    if (length sig =? 65)%nat then (take AddressLength sig, None)
    else ([], Some (ForeignOther "invalid signature length"));
  ToECDSAPub := fun pub => match pub with [] => None | _ => Some pub end;
  VerifySignature := fun pub _ sig64 => bool_decide (take AddressLength sig64 = pub);
  PubkeyToAddress := fun key => BytesToAddress key
|}.

Definition consts : CommonConsts := {|
  BlockInterval := 5;
  BlockSlot := 15;
  GenesisMinerQrSignature := replicate PreQrLength x00
|}.

(** At most two uncles. *)
Definition ethash : @Engine ext := {|
  VerifyUncles := fun _ block _ =>
    if (2 <? length (uncles block))%nat then Some (ForeignOther "too many uncles")
    else None
|}.

Definition miner_a : Address := replicate AddressLength x0a.
Definition miner_b : Address := replicate AddressLength x0b.

(** The registry: one miner. *)
Definition registry : list Address := [miner_a].

(** A signature of [miner_a]: the address, then 45 bytes to make 65. *)
Definition sig_a : bytes := miner_a ++ replicate 45 x00.

(** A header of [miner_a] with the given number, time, difficulty level
    and miner QR signature; the roots are those of the empty lists. *)
Definition mk_header (number time level : Z) (qrsig : bytes) : Header := {|
  ParentHash := number_hash (number - 1);
  UncleHash := empty_root;
  Coinbase := miner_a;
  PrimaryMiner := miner_a;
  Root := empty_root;
  TxHash := empty_root;
  ReceiptHash := empty_root;
  Bloom := replicate 256 x00;
  DifficultyLevel := level;
  Number := number;
  GasLimit := 10000000;
  GasUsed := 6000000;
  Time := time;
  MinerQrSignature := qrsig
|}.

Definition mk_block (h : Header) : @Block ext :=
  {| header := h; uncles := []; transactions := [] |}.

(** A block that only carries gas figures. *)
Definition gas_block (gasLimit gasUsed : Z) : @Block ext :=
  mk_block {|
    ParentHash := empty_root; UncleHash := empty_root;
    Coinbase := miner_a; PrimaryMiner := miner_a;
    Root := empty_root; TxHash := empty_root; ReceiptHash := empty_root;
    Bloom := replicate 256 x00; DifficultyLevel := 0; Number := 7;
    GasLimit := gasLimit; GasUsed := gasUsed; Time := 100;
    MinerQrSignature := []
  |}.

(** A chain that holds block 9 with its state, and whose current state
    cannot be opened. *)
Definition chain : @BlockChain ext := {|
  chain_index := {[ (number_hash 9, 9) := empty_root ]};
  chain_states := {[ empty_root ]};
  chain_current := (None, Some (ForeignOther "missing trie node"))
|}.

(** The same chain after the state of block 9 was discarded. *)
Definition pruned_chain : @BlockChain ext := {|
  chain_index := {[ (number_hash 9, 9) := empty_root ]};
  chain_states := ∅;
  chain_current := (None, Some (ForeignOther "missing trie node"))
|}.

Definition validator (c : @BlockChain ext) : @BlockValidator ext := {|
  config := {| IsEIP158 := fun n => 3 <=? n |};
  bc := c;
  engine := ethash
|}.

(** Block 10 of [miner_a], and a block 10 with three uncles and with an
    uncle root in the header that is not the root of its uncles. *)
Definition block10 : @Block ext := mk_block (mk_header 10 100 0 []).

Definition header10_bad_uncle_root : Header := {|
  ParentHash := number_hash 9; UncleHash := number_hash 1;
  Coinbase := miner_a; PrimaryMiner := miner_a;
  Root := empty_root; TxHash := empty_root; ReceiptHash := empty_root;
  Bloom := replicate 256 x00; DifficultyLevel := 0; Number := 10;
  GasLimit := 10000000; GasUsed := 6000000; Time := 100;
  MinerQrSignature := []
|}.

Definition block10_uncles : @Block ext := {|
  header := header10_bad_uncle_root;
  uncles := [mk_header 9 90 0 []; mk_header 9 91 0 []; mk_header 9 92 0 []];
  transactions := []
|}.

(** The miner QR signature of block 10: a signature part of 65 bytes 01
    and the digest of 32 bytes 07. *)
Definition parent_sig : bytes := replicate 65 x01 ++ replicate HashLength x07.

(** Block 10, the parent, with difficulty level 2. *)
Definition parent10 : @Block ext := mk_block (mk_header 10 100 2 parent_sig).

(** What the sample QR function reads from the whole signature of the
    parent, and the digest segment of that signature. *)
Definition qr_head : Hash := replicate HashLength x01.
Definition qr_tail : Hash := replicate HashLength x07.

(** Block 11 of [miner_a], 30 seconds after block 10, with the given
    difficulty level and with the given digest behind the signature of
    [miner_a]. *)
Definition block11 (level : Z) (digest : Hash) : @Block ext :=
  mk_block (mk_header 11 130 level (sig_a ++ digest)).

(** A scheme that recovers an empty key, for which [ToECDSAPub] returns
    nil, and that verifies every signature. *)
Definition crypto_nil_key : Crypto := {|
  PublicKey := bytes;
  Ecrecover := fun _ _ => ([], None);
  ToECDSAPub := fun pub => match pub with [] => None | _ => Some pub end;
  VerifySignature := fun _ _ _ => true;
  PubkeyToAddress := fun key => BytesToAddress key
|}.

(** Block 11 as [block11 2 qr_head], with the given coinbase and primary
    miner. *)
Definition block11_of (coinbase primary : Address) : @Block ext :=
  mk_block {|
    ParentHash := number_hash 10; UncleHash := empty_root;
    Coinbase := coinbase; PrimaryMiner := primary;
    Root := empty_root; TxHash := empty_root; ReceiptHash := empty_root;
    Bloom := replicate 256 x00; DifficultyLevel := 2; Number := 11;
    GasLimit := 10000000; GasUsed := 6000000; Time := 130;
    MinerQrSignature := sig_a ++ qr_head
  |}.

(** Block 1 of [miner_a], without a miner QR signature. *)
Definition block1 : @Block ext := mk_block (mk_header 1 130 0 []).

(** Gas parameters with the largest target. *)
Definition wide_gas_params : GasParams :=
  {| MinGasLimit := 5000; TargetGasLimit := two64 - 1 |}.

End Sample.

(** * Properties *)

(** ** Machine integers *)

Lemma two64_eq : two64 = 18446744073709551616.
Proof. reflexivity. Qed.

Lemma two63_eq : two63 = 9223372036854775808.
Proof. reflexivity. Qed.

Lemma u64_range (x : Z) : is_uint64 (u64 x).
Proof. unfold is_uint64, u64. apply Z.mod_pos_bound. rewrite two64_eq. lia. Qed.

Lemma u64_small (x : Z) : is_uint64 x -> u64 x = x.
Proof. unfold is_uint64, u64. intros Hx. now apply Z.mod_small. Qed.

(** The wrapped value is the one in range that differs from the exact
    value by a multiple of [two64]. *)
Lemma u64_shift (x q r : Z) : x = q * two64 + r -> is_uint64 r -> u64 x = r.
Proof.
  unfold is_uint64, u64. intros -> Hr.
  symmetry. apply (Z.mod_unique_pos _ _ q); [assumption | ring].
Qed.

Lemma i64_small (x : Z) : is_int64 x -> i64 x = x.
Proof.
  unfold is_int64, i64. rewrite two63_eq. intros Hx.
  destruct (Z.neg_nonneg_cases x) as [Hneg | Hpos].
  - assert (Hm : x mod two64 = x + two64).
    { symmetry. apply (Z.mod_unique_pos _ _ (-1)); rewrite two64_eq; lia. }
    rewrite Hm. destruct (Z.ltb_spec (x + two64) 9223372036854775808);
      rewrite two64_eq in *; lia.
  - rewrite Z.mod_small by (rewrite two64_eq; lia).
    destruct (Z.ltb_spec x 9223372036854775808); lia.
Qed.

Lemma Int64_small (x : Z) : is_int64 x -> Int64 x = x.
Proof.
  intros Hx. unfold Int64.
  assert (Hx' := Hx). unfold is_int64 in Hx'. rewrite two63_eq in Hx'.
  destruct (Z.ltb_spec x 0) as [Hneg | Hpos].
  - destruct (Z.eq_dec x (- two63)) as [-> | Hne].
    + reflexivity.
    + rewrite two63_eq in Hne.
      rewrite (Z.mod_small (Z.abs x)) by (rewrite two64_eq; lia).
      rewrite (i64_small (Z.abs x)) by (unfold is_int64; rewrite two63_eq; lia).
      rewrite i64_small by (unfold is_int64; rewrite two63_eq; lia). lia.
  - rewrite (Z.mod_small (Z.abs x)) by (rewrite two64_eq; lia).
    rewrite i64_small by (unfold is_int64; rewrite two63_eq; lia). lia.
Qed.

Lemma Cmp_eq_0 (x y : Z) : (Cmp x y =? 0) = (x =? y).
Proof.
  unfold Cmp. destruct (Z.compare_spec x y) as [-> | Hlt | Hgt].
  - symmetry. apply Z.eqb_refl.
  - symmetry. apply Z.eqb_neq. lia.
  - symmetry. apply Z.eqb_neq. lia.
Qed.

(** ** The gas-limit policy *)

Section GasLimitFacts.
Context `{Externals} (gp : GasParams).

Lemma gas_contrib_range (parent : Block) :
  0 <= gas_contrib parent < 18014398509481984.
Proof.
  unfold gas_contrib, GasLimitBoundDivisor.
  pose proof (u64_range (Blk.GasUsed_ parent + Blk.GasUsed_ parent / 2)) as Hr.
  unfold is_uint64 in Hr. rewrite two64_eq in Hr.
  split.
  - apply Z.div_pos; lia.
  - apply Z.div_lt_upper_bound; lia.
Qed.

Lemma gas_decay_exact (parent : Block) :
  GasLimitBoundDivisor <= Blk.GasLimit_ parent ->
  Blk.GasLimit_ parent < two64 ->
  gas_decay parent = Blk.GasLimit_ parent / GasLimitBoundDivisor - 1
  /\ 0 <= gas_decay parent <= Blk.GasLimit_ parent.
Proof.
  unfold gas_decay, GasLimitBoundDivisor. rewrite two64_eq. intros Hlo Hhi.
  assert (Hq : 1 <= Blk.GasLimit_ parent / 1024)
    by (apply Z.div_le_lower_bound; lia).
  assert (Hq' : Blk.GasLimit_ parent / 1024 <= Blk.GasLimit_ parent)
    by (apply Z.div_le_upper_bound; lia).
  rewrite u64_small by (unfold is_uint64; rewrite two64_eq; lia).
  lia.
Qed.


(** From the divisor on, and when [parentGasLimit + decay] fits in 64
    bits, neither limit wraps. *)
Lemma gas_limits_no_wrap (parent : Block) :
  GasLimitBoundDivisor <= Blk.GasLimit_ parent ->
  Blk.GasLimit_ parent + gas_decay parent < two64 ->
  gas_decay parent = Blk.GasLimit_ parent / GasLimitBoundDivisor - 1
  /\ 0 <= gas_decay parent <= Blk.GasLimit_ parent
  /\ gas_lowered parent
     = Blk.GasLimit_ parent - gas_decay parent + gas_contrib parent
  /\ gas_raised parent = Blk.GasLimit_ parent + gas_decay parent.
Proof.
  intros Hdiv Hfit.
  pose proof (u64_range (Blk.GasLimit_ parent / GasLimitBoundDivisor - 1)) as Hd.
  fold (gas_decay parent) in Hd. unfold is_uint64 in Hd.
  destruct (gas_decay_exact parent Hdiv ltac:(lia)) as [Hdecay [Hd0 HdL]].
  pose proof (gas_contrib_range parent) as Hc.
  split; [exact Hdecay |]. split; [lia |].
  unfold GasLimitBoundDivisor in *. rewrite two64_eq in *.
  pose proof (Z.div_mod (Blk.GasLimit_ parent) 1024 ltac:(lia)) as Hdm.
  pose proof (Z.mod_pos_bound (Blk.GasLimit_ parent) 1024 ltac:(lia)) as Hmod.
  split.
  - unfold gas_lowered.
    rewrite (u64_small (Blk.GasLimit_ parent - gas_decay parent))
      by (unfold is_uint64; rewrite two64_eq; lia).
    apply u64_small. unfold is_uint64. rewrite two64_eq. lia.
  - unfold gas_raised. apply u64_small. unfold is_uint64.
    rewrite two64_eq. lia.
Qed.


End GasLimitFacts.

Section GasLimitClaims.
Context `{Externals} (gp : GasParams).

(** C3, as amended. For a parent whose gas limit is at least
    [GasLimitBoundDivisor], for which [MinGasLimit] is at most
    [parentGasLimit + decay], and for which [parentGasLimit + decay] fits
    in 64 bits, [CalcGasLimit] returns at least [MinGasLimit] and at least
    [parentGasLimit - decay]; and the distance of the result to the
    parent's gas limit is at most [decay] exactly when [contrib] is at most
    twice [decay] or the first limit [parentGasLimit - decay + contrib] is
    below [TargetGasLimit]; here
    [decay = parentGasLimit / GasLimitBoundDivisor - 1]. *)
Theorem CalcGasLimit_bounded (parent : Block) :
  GasLimitBoundDivisor <= Blk.GasLimit_ parent ->
  MinGasLimit gp <= Blk.GasLimit_ parent + gas_decay parent ->
  Blk.GasLimit_ parent + gas_decay parent < two64 ->
  gas_decay parent = Blk.GasLimit_ parent / GasLimitBoundDivisor - 1
  /\ MinGasLimit gp <= CalcGasLimit gp parent
  /\ Blk.GasLimit_ parent - gas_decay parent <= CalcGasLimit gp parent
  /\ (Z.abs (CalcGasLimit gp parent - Blk.GasLimit_ parent) <= gas_decay parent
      <-> gas_contrib parent <= 2 * gas_decay parent
          \/ gas_lowered parent < TargetGasLimit gp).
Proof.
  intros Hdiv Hmin Hfit.
  destruct (gas_limits_no_wrap parent Hdiv Hfit) as (Hdecay & Hd & Hlow & Hup).
  pose proof (gas_contrib_range parent) as Hc.
  split; [exact Hdecay |].
  unfold CalcGasLimit. cbv zeta. rewrite Hlow, Hup, Z.gtb_ltb.
  clear Hlow Hup Hdecay. unfold GasLimitBoundDivisor in Hdiv.
  destruct (Z.ltb_spec (Blk.GasLimit_ parent - gas_decay parent
                        + gas_contrib parent) (MinGasLimit gp));
    repeat match goal with
           | |- context [if ?a <? ?b then _ else _] =>
               destruct (Z.ltb_spec a b)
           end; lia.
Qed.


End GasLimitClaims.

(** C3, as stated, fails, and each condition of the amended statement is
    needed. With the default parameters: a parent with gas limit 2000 and
    no gas used gets 2000, below [MinGasLimit]; a parent with gas limit 0
    gets the target, which is not within
    [parentGasLimit / GasLimitBoundDivisor - 1 = -1] of 0; a parent with
    gas limit 10000000 and [2^40] gas used gets a limit that is farther
    than [decay] from its own. With a target of [2^64 - 1], a parent with
    gas limit [2^64 - 2] gets [2^54 - 4]. *)
Lemma CalcGasLimit_bound_fails :
  (let parent := Sample.gas_block 2000 0 in
   header_wf (header parent)
   /\ GasLimitBoundDivisor <= Blk.GasLimit_ parent
   /\ Blk.GasLimit_ parent + gas_decay parent < two64
   /\ CalcGasLimit default_gas_params parent = 2000
   /\ ~ (MinGasLimit default_gas_params <= CalcGasLimit default_gas_params parent
         /\ Z.abs (CalcGasLimit default_gas_params parent - Blk.GasLimit_ parent)
            <= Blk.GasLimit_ parent / GasLimitBoundDivisor - 1))
  /\ (let parent := Sample.gas_block 0 0 in
      header_wf (header parent)
      /\ MinGasLimit default_gas_params <= Blk.GasLimit_ parent + gas_decay parent
      /\ Blk.GasLimit_ parent + gas_decay parent < two64
      /\ CalcGasLimit default_gas_params parent = 4712388
      /\ ~ Z.abs (CalcGasLimit default_gas_params parent - Blk.GasLimit_ parent)
           <= Blk.GasLimit_ parent / GasLimitBoundDivisor - 1)
  /\ (let parent := Sample.gas_block (two64 - 2) 0 in
      header_wf (header parent)
      /\ GasLimitBoundDivisor <= Blk.GasLimit_ parent
      /\ MinGasLimit Sample.wide_gas_params
         <= Blk.GasLimit_ parent + gas_decay parent
      /\ CalcGasLimit Sample.wide_gas_params parent = 2 ^ 54 - 4
      /\ ~ Z.abs (CalcGasLimit Sample.wide_gas_params parent
                  - Blk.GasLimit_ parent)
           <= Blk.GasLimit_ parent / GasLimitBoundDivisor - 1)
  /\ (let parent := Sample.gas_block 10000000 (2 ^ 40) in
      header_wf (header parent)
      /\ GasLimitBoundDivisor <= Blk.GasLimit_ parent
      /\ MinGasLimit default_gas_params <= Blk.GasLimit_ parent + gas_decay parent
      /\ Blk.GasLimit_ parent + gas_decay parent < two64
      /\ CalcGasLimit default_gas_params parent = 1620602972
      /\ ~ Z.abs (CalcGasLimit default_gas_params parent - Blk.GasLimit_ parent)
           <= Blk.GasLimit_ parent / GasLimitBoundDivisor - 1).
Proof.
  cbv zeta. unfold header_wf, is_uint64.
  repeat split;
    try (vm_compute; reflexivity);
    try (vm_compute; discriminate);
    try (intros Hbound; vm_compute in Hbound; apply Hbound; reflexivity).
  intros [Hmin _]. vm_compute in Hmin. apply Hmin. reflexivity.
Qed.

Lemma CalcGasLimit_bounded_witness :
  let parent := Sample.gas_block 5000 5000 in
  CalcGasLimit default_gas_params parent = 5003
  /\ MinGasLimit default_gas_params <= CalcGasLimit default_gas_params parent
  /\ Z.abs (CalcGasLimit default_gas_params parent - Blk.GasLimit_ parent)
     <= gas_decay parent.
Proof.
  cbv zeta.
  destruct (CalcGasLimit_bounded default_gas_params (Sample.gas_block 5000 5000))
    as (_ & Hmin & _ & Hbound).
  - vm_compute. discriminate.
  - vm_compute. discriminate.
  - vm_compute. reflexivity.
  - split; [vm_compute; reflexivity |]. split; [exact Hmin |].
    apply Hbound. right. vm_compute. reflexivity.
Defined.



(** ** The chain index *)

Section ChainFacts.
Context `{Externals}.

Lemma HasBlock_spec (c : BlockChain) (hash : Hash) (number : Z) :
  HasBlock c hash number = true <-> is_Some (chain_index c !! (hash, number)).
Proof. unfold HasBlock. apply bool_decide_eq_true. Qed.

Lemma HasBlockAndState_spec (c : BlockChain) (hash : Hash) (number : Z) :
  HasBlockAndState c hash number = true
  <-> exists root, chain_index c !! (hash, number) = Some root
                   /\ root ∈ chain_states c.
Proof.
  unfold HasBlockAndState.
  destruct (chain_index c !! (hash, number)) as [root |] eqn:Hidx.
  - rewrite bool_decide_eq_true. split.
    + intros Hin. exists root. split; [reflexivity | exact Hin].
    + intros [root' [Heq Hin]]. injection Heq as ->. exact Hin.
  - split; [discriminate |]. intros [root [Heq _]]. discriminate.
Qed.

(** A block with state is in the index. *)
Lemma HasBlockAndState_HasBlock (c : BlockChain) (hash : Hash) (number : Z) :
  HasBlockAndState c hash number = true -> HasBlock c hash number = true.
Proof.
  rewrite HasBlockAndState_spec, HasBlock_spec.
  intros [root [Hidx _]]. rewrite Hidx. eexists. reflexivity.
Qed.

End ChainFacts.

(** ** [ValidateBody] *)

Section BodyClaims.
Context `{Externals}.

(** Past the linkage checks, [ValidateBody] is the check of the content. *)
Lemma ValidateBody_linkable (v : BlockValidator) (block : Block) :
  linkable v block -> ValidateBody v block = validate_body_content v block.
Proof.
  unfold ValidateBody, linkable. intros [-> ->]. reflexivity.
Qed.

(** C7. [ValidateBody] returns [ErrKnownBlock] when the block has state
    in the chain; otherwise [ErrUnknownAncestor] when the parent is absent
    from the index, and the different error [ErrPrunedAncestor] when the
    parent is in the index without state; only otherwise does it go on to
    the uncle and root checks. *)
Theorem ValidateBody_linkage (v : BlockValidator) (block : Block) :
  (HasBlockAndState (bc v) (Blk.Hash_ block) (Blk.NumberU64 block) = true ->
   ValidateBody v block = Some ErrKnownBlock)
  /\ (HasBlockAndState (bc v) (Blk.Hash_ block) (Blk.NumberU64 block) = false ->
      HasBlock (bc v) (Blk.ParentHash_ block) (parent_number block) = false ->
      ValidateBody v block = Some ErrUnknownAncestor)
  /\ (HasBlockAndState (bc v) (Blk.Hash_ block) (Blk.NumberU64 block) = false ->
      HasBlock (bc v) (Blk.ParentHash_ block) (parent_number block) = true ->
      HasBlockAndState (bc v) (Blk.ParentHash_ block) (parent_number block) = false ->
      ValidateBody v block = Some ErrPrunedAncestor)
  /\ (linkable v block -> ValidateBody v block = validate_body_content v block)
  /\ ErrUnknownAncestor <> ErrPrunedAncestor.
Proof.
  unfold ValidateBody, linkable.
  repeat split.
  - intros ->. reflexivity.
  - intros -> Habsent.
    destruct (HasBlockAndState (bc v) (Blk.ParentHash_ block) _) eqn:Hstate.
    + apply HasBlockAndState_HasBlock in Hstate. congruence.
    + simpl. rewrite Habsent. reflexivity.
  - intros -> Hpresent ->. simpl. rewrite Hpresent. reflexivity.
  - intros [-> ->]. reflexivity.
  - discriminate.
Qed.

(** C9. Once the linkage checks pass, [ValidateBody] hands the state half
    of [State] to [VerifyUncles] and never reads the error half: an error
    of [VerifyUncles] is returned whatever the roots are, and a block whose
    uncles are accepted and whose roots match is accepted although [State]
    failed. *)
Theorem ValidateBody_state_error_dropped (v : BlockValidator) (block : Block) :
  linkable v block ->
  let verdict := @VerifyUncles _ (engine v) (bc v) block (fst (State (bc v))) in
  ValidateBody v block
  = match verdict with
    | Some err => Some (surfaced err)
    | None =>
        if negb (bool_decide (CalcUncleHash (Blk.Uncles block)
                              = UncleHash (Blk.Header_ block)))
        then Some (UncleRootMismatch (CalcUncleHash (Blk.Uncles block))
                     (UncleHash (Blk.Header_ block)))
        else if negb (bool_decide (DeriveShaTxs (Blk.Transactions block)
                                   = TxHash (Blk.Header_ block)))
        then Some (TxRootMismatch (DeriveShaTxs (Blk.Transactions block))
                     (TxHash (Blk.Header_ block)))
        else None
    end
  /\ (forall err, verdict = Some err -> ValidateBody v block = Some (surfaced err))
  /\ (forall err, snd (State (bc v)) = Some err ->
      verdict = None ->
      CalcUncleHash (Blk.Uncles block) = UncleHash (Blk.Header_ block) ->
      DeriveShaTxs (Blk.Transactions block) = TxHash (Blk.Header_ block) ->
      ValidateBody v block = None).
Proof.
  intros Hlink verdict.
  rewrite (ValidateBody_linkable v block Hlink).
  unfold validate_body_content. subst verdict.
  destruct (State (bc v)) as [state err0]. simpl.
  split; [reflexivity |]. split.
  - intros err ->. reflexivity.
  - intros err _ -> Huncle Htx.
    rewrite (bool_decide_eq_true_2 _ Huncle), (bool_decide_eq_true_2 _ Htx).
    reflexivity.
Qed.

End BodyClaims.

Lemma ValidateBody_state_error_dropped_witness :
  linkable (Sample.validator Sample.chain) Sample.block10_uncles
  /\ State Sample.chain = (None, Some (ForeignOther "missing trie node"))
  /\ @CalcUncleHash Sample.ext (Blk.Uncles Sample.block10_uncles)
     <> UncleHash (Blk.Header_ Sample.block10_uncles)
  /\ ValidateBody (Sample.validator Sample.chain) Sample.block10_uncles
     = Some (Other "too many uncles")
  /\ ValidateBody (Sample.validator Sample.chain) Sample.block10 = None.
Proof.
  assert (Hlink : linkable (Sample.validator Sample.chain) Sample.block10_uncles)
    by (split; vm_compute; reflexivity).
  assert (Hlink' : linkable (Sample.validator Sample.chain) Sample.block10)
    by (split; vm_compute; reflexivity).
  split; [exact Hlink |]. split; [reflexivity |].
  split; [vm_compute; discriminate |].
  split.
  - destruct (ValidateBody_state_error_dropped _ _ Hlink) as [_ [Hmask _]].
    apply (Hmask (ForeignOther "too many uncles")). reflexivity.
  - destruct (ValidateBody_state_error_dropped _ _ Hlink') as [_ [_ Hdrop]].
    apply (Hdrop (ForeignOther "missing trie node")); reflexivity.
Defined.

(** Scenario 5 of the specification, on the sample chain: a parent without
    state gives [ErrPrunedAncestor], a parent that is not in the index
    gives [ErrUnknownAncestor]. *)
Example ValidateBody_pruned_parent :
  ValidateBody (Sample.validator Sample.pruned_chain) Sample.block10
  = Some ErrPrunedAncestor.
Proof. vm_compute. reflexivity. Qed.

Example ValidateBody_unknown_parent :
  ValidateBody (Sample.validator Sample.chain)
    (Sample.mk_block (Sample.mk_header 12 100 0 []))
  = Some ErrUnknownAncestor.
Proof. vm_compute. reflexivity. Qed.

(** ** [ValidateState] *)

Section StateClaims.
Context `{Externals}.

(** C8. [ValidateState] checks the gas used, the bloom, the receipt root
    and the state root in this order and returns on the first mismatch,
    with the value of the header and the recomputed value in the error;
    when the four recomputed values are those of the header it returns no
    error. *)
Theorem ValidateState_order (v : BlockValidator) (block parent : Block)
    (statedb : StateDB) (receipts : list Receipt) (usedGas : Z) :
  let header := Blk.Header_ block in
  let rbloom := CreateBloom receipts in
  let receiptSha := DeriveShaReceipts receipts in
  let root := IntermediateRoot statedb (IsEIP158 (config v) (Number header)) in
  let result := ValidateState v block parent statedb receipts usedGas in
  (GasUsed header <> usedGas ->
   result = Some (GasUsedMismatch (GasUsed header) usedGas))
  /\ (GasUsed header = usedGas -> rbloom <> Bloom header ->
      result = Some (BloomMismatch (Bloom header) rbloom))
  /\ (GasUsed header = usedGas -> rbloom = Bloom header ->
      receiptSha <> ReceiptHash header ->
      result = Some (ReceiptRootMismatch (ReceiptHash header) receiptSha))
  /\ (GasUsed header = usedGas -> rbloom = Bloom header ->
      receiptSha = ReceiptHash header -> Root header <> root ->
      result = Some (StateRootMismatch (Root header) root))
  /\ (GasUsed header = usedGas -> rbloom = Bloom header ->
      receiptSha = ReceiptHash header -> Root header = root ->
      result = None).
Proof.
  cbv zeta. unfold ValidateState, Blk.GasUsed_, Blk.Header_.
  repeat split.
  - intros Hgas. apply Z.eqb_neq in Hgas. rewrite Hgas. reflexivity.
  - intros Hgas Hbloom. apply Z.eqb_eq in Hgas. rewrite Hgas.
    rewrite (bool_decide_eq_false_2 _ Hbloom). reflexivity.
  - intros Hgas Hbloom Hsha. apply Z.eqb_eq in Hgas. rewrite Hgas.
    rewrite (bool_decide_eq_true_2 _ Hbloom), (bool_decide_eq_false_2 _ Hsha).
    reflexivity.
  - intros Hgas Hbloom Hsha Hroot. apply Z.eqb_eq in Hgas. rewrite Hgas.
    rewrite (bool_decide_eq_true_2 _ Hbloom), (bool_decide_eq_true_2 _ Hsha),
      (bool_decide_eq_false_2 _ Hroot).
    reflexivity.
  - intros Hgas Hbloom Hsha Hroot. apply Z.eqb_eq in Hgas. rewrite Hgas.
    rewrite (bool_decide_eq_true_2 _ Hbloom), (bool_decide_eq_true_2 _ Hsha),
      (bool_decide_eq_true_2 _ Hroot).
    reflexivity.
Qed.

End StateClaims.

(** On the sample chain: the gas used is looked at before the receipt
    root, and a block whose four values match is accepted. *)
Example ValidateState_gas_first :
  let bad_receipts := {|
    ParentHash := Sample.number_hash 9; UncleHash := Sample.empty_root;
    Coinbase := Sample.miner_a; PrimaryMiner := Sample.miner_a;
    Root := Sample.empty_root; TxHash := Sample.empty_root;
    ReceiptHash := Sample.number_hash 1;
    Bloom := replicate 256 x00; DifficultyLevel := 0; Number := 10;
    GasLimit := 10000000; GasUsed := 6000000; Time := 100;
    MinerQrSignature := [] |} in
  ValidateState (Sample.validator Sample.chain) (Sample.mk_block bad_receipts)
    Sample.block10 Sample.registry [] 5
  = Some (GasUsedMismatch 6000000 5)
  /\ ValidateState (Sample.validator Sample.chain) (Sample.mk_block bad_receipts)
       Sample.block10 Sample.registry [] 6000000
     = Some (ReceiptRootMismatch (Sample.number_hash 1) Sample.empty_root)
  /\ ValidateState (Sample.validator Sample.chain) Sample.block10
       Sample.block10 Sample.registry [] 6000000
     = None.
Proof. cbv zeta. repeat split; vm_compute; reflexivity. Qed.

(** ** [VerifySig] *)

Section SignatureClaims.
Context `{Crypto}.

(** C4. [VerifySig] returns false, without a panic, whenever [Ecrecover]
    returns an error; and it returns true exactly when [Ecrecover]
    succeeds, the first 64 bytes of the signature verify against the
    recovered key, and the address of the recovered key is the claimed
    address. *)
Theorem VerifySig_sound (sig : bytes) (hash : Hash) (miner : Address) :
  (forall pub err, Ecrecover hash sig = (pub, Some err) ->
   VerifySig sig hash miner = Returns false)
  /\ (VerifySig sig hash miner = Returns true
      <-> exists pub key,
            Ecrecover hash sig = (pub, None)
            /\ (64 <= length sig)%nat
            /\ VerifySignature pub hash (take 64 sig) = true
            /\ ToECDSAPub pub = Some key
            /\ PubkeyToAddress key = miner).
Proof.
  unfold VerifySig, slice_to. split.
  - intros pub err ->. reflexivity.
  - destruct (Ecrecover hash sig) as [pub [err |]].
    + split; [discriminate |]. intros (pub' & key & Heq & _). discriminate.
    + destruct (Nat.leb_spec 64 (length sig)) as [Hlen | Hlen].
      * destruct (VerifySignature pub hash (take 64 sig)) eqn:Hverify.
        -- destruct (ToECDSAPub pub) as [key |] eqn:Hkey.
           ++ split.
              ** intros Hres. injection Hres as Hres.
                 apply bool_decide_eq_true in Hres.
                 exists pub, key. repeat split; assumption.
              ** intros (pub' & key' & Heq & _ & _ & Hkey' & Haddr).
                 injection Heq as <-. rewrite Hkey in Hkey'.
                 injection Hkey' as <-.
                 rewrite (bool_decide_eq_true_2 _ Haddr). reflexivity.
           ++ split; [discriminate |].
              intros (pub' & key' & Heq & _ & _ & Hkey' & _).
              injection Heq as <-. rewrite Hkey in Hkey'. discriminate.
        -- split; [discriminate |].
           intros (pub' & key' & Heq & _ & Hverify' & _).
           injection Heq as <-. rewrite Hverify in Hverify'. discriminate.
      * split; [discriminate |].
        intros (pub' & key' & _ & Hlen' & _). lia.
Qed.

End SignatureClaims.

(** The sample scheme: the signature of [miner_a] is accepted for
    [miner_a] and refused for [miner_b]; a signature of the wrong length
    is refused. *)
Example VerifySig_sample :
  @VerifySig Sample.crypto Sample.sig_a Sample.empty_root Sample.miner_a
    = Returns true
  /\ @VerifySig Sample.crypto Sample.sig_a Sample.empty_root Sample.miner_b
     = Returns false
  /\ @VerifySig Sample.crypto [x01; x02] Sample.empty_root Sample.miner_a
     = Returns false.
Proof. repeat split; vm_compute; reflexivity. Qed.

(** ** Bytes and hashes *)

Lemma hex_digits_decode (b : byte) :
  Byte.of_N (hex_value (hex_digit (Byte.to_N b / 16)) * 16
             + hex_value (hex_digit (Byte.to_N b mod 16)))%N = Some b.
Proof. destruct b; reflexivity. Qed.

Lemma hex_encode_inj (a b : bytes) : hex_encode a = hex_encode b -> a = b.
Proof.
  revert b. induction a as [| x a IH]; intros [| y b] Heq;
    simpl in Heq; try discriminate.
  - reflexivity.
  - injection Heq as Hhi Hlo Hrest.
    pose proof (hex_digits_decode x) as Hx.
    rewrite Hhi, Hlo, hex_digits_decode in Hx.
    injection Hx as ->. f_equal. apply IH. exact Hrest.
Qed.

(** Two hashes print the same exactly when they are the same. *)
Lemma Hash_String_eqb (a b : Hash) :
  String.eqb (Hash_String a) (Hash_String b) = bool_decide (a = b).
Proof.
  destruct (bool_decide_reflect (a = b)) as [-> | Hne].
  - apply String.eqb_refl.
  - apply String.eqb_neq. unfold Hash_String. intros Heq.
    injection Heq as Heq. apply Hne. apply hex_encode_inj. exact Heq.
Qed.

Lemma set_bytes_exact (width : nat) (b : bytes) :
  length b = width -> set_bytes width b = b.
Proof.
  intros Hlen. unfold set_bytes. rewrite Hlen.
  rewrite Nat.ltb_irrefl. rewrite Hlen, Nat.sub_diag. reflexivity.
Qed.

Lemma set_bytes_length (width : nat) (b : bytes) :
  length (set_bytes width b) = width.
Proof.
  unfold set_bytes. destruct (Nat.ltb_spec width (length b)) as [Hlt | Hge].
  - rewrite length_app, length_replicate, length_drop. lia.
  - rewrite length_app, length_replicate. lia.
Qed.

(** Behind a signature of [PreQrLength] bytes, the digest taken by the
    QR gate is the trailing 32 bytes. *)
Lemma qr_digest_segment (sig : bytes) :
  length sig = PreQrLength ->
  slice_from 65 sig = Some (drop 65 sig)
  /\ BytesToHash (drop 65 sig) = drop 65 sig
  /\ length (drop 65 sig) = HashLength
  /\ slice_to 65 sig = Some (take 65 sig).
Proof.
  unfold PreQrLength, slice_from, slice_to, BytesToHash, HashLength.
  intros Hlen. rewrite Hlen. simpl.
  assert (Hdrop : length (drop 65 sig) = 32%nat)
    by (rewrite length_drop; lia).
  repeat split; try assumption.
  apply set_bytes_exact. exact Hdrop.
Qed.

(** ** [ValidateMiner] *)

Section MinerFacts.
Context `{Externals} `{!MinerList} `{!Crypto} (cc : CommonConsts).

Lemma ValidateMiner_at_qr_gate (block parent : Block) (statedb : StateDB)
    (n : Z) (qr : Hash) :
  reaches_qr_gate cc block parent statedb n qr ->
  ValidateMiner cc block parent statedb
  = qr_stage cc (Blk.Header_ block) parent statedb (ReadMinerNum statedb) n qr.
Proof.
  unfold reaches_qr_gate, ValidateMiner, eligibility_stage. cbv zeta.
  intros (Htime & Hminer & Hdiv & Hqr).
  rewrite Htime, Hdiv, Hqr.
  destruct (IsMiner statedb _ _ _) as [isMiner flag].
  simpl in Hminer. subst isMiner. reflexivity.
Qed.

(** The QR gate is open for a block whose number, read as an [int64], is
    at most 1. *)
Lemma qr_gate_skipped (header : Header) (qr : Hash) :
  Int64 (Number header) <= 1 -> qr_gate header qr = Returns None.
Proof.
  intros Hnum. unfold qr_gate.
  rewrite Z.gtb_ltb. destruct (Z.ltb_spec 1 (Int64 (Number header))); [lia |].
  reflexivity.
Qed.

Lemma qr_gate_length (header : Header) (qr : Hash) :
  1 < Int64 (Number header) ->
  length (MinerQrSignature header) <> PreQrLength ->
  qr_gate header qr = Returns (Some QrLengthInvalid).
Proof.
  intros Hnum Hlen. unfold qr_gate.
  rewrite Z.gtb_ltb. destruct (Z.ltb_spec 1 (Int64 (Number header))); [| lia].
  apply Nat.eqb_neq in Hlen. rewrite Hlen. reflexivity.
Qed.

Lemma qr_gate_checked (header : Header) (qr : Hash) :
  1 < Int64 (Number header) ->
  length (MinerQrSignature header) = PreQrLength ->
  qr_gate header qr
  = if bool_decide (drop 65 (MinerQrSignature header) = qr) then
      match VerifySig (take 65 (MinerQrSignature header)) qr (Coinbase header) with
      | Panics => Panics
      | Returns false => Returns (Some InvalidQrSignature)
      | Returns true => Returns None
      end
    else Returns (Some QrMismatch).
Proof.
  intros Hnum Hlen. unfold qr_gate.
  rewrite Z.gtb_ltb. destruct (Z.ltb_spec 1 (Int64 (Number header))); [| lia].
  destruct (qr_digest_segment _ Hlen) as (Hfrom & Hhash & _ & Hto).
  apply Nat.eqb_eq in Hlen. rewrite Hlen. cbn [negb].
  rewrite Hfrom, Hhash, Hto, Hash_String_eqb.
  destruct (bool_decide_reflect (qr = drop 65 (MinerQrSignature header)))
    as [Heq | Hne].
  - rewrite (bool_decide_eq_true_2 _ (eq_sym Heq)). reflexivity.
  - rewrite bool_decide_eq_false_2 by congruence. reflexivity.
Qed.

(** The errors of the QR gate and of the checks behind it. *)
Lemma qr_gate_errors (header : Header) (qr : Hash) (err : error) :
  qr_gate header qr = Returns (Some err) ->
  err = QrLengthInvalid \/ err = QrMismatch \/ err = InvalidQrSignature.
Proof.
  unfold qr_gate. intros Hres.
  repeat match type of Hres with
         | context [match ?x with _ => _ end] => destruct x
         end;
    injection Hres as <- || discriminate Hres; auto.
Qed.

Lemma level_gate_errors (header : Header) (parent : Block) (statedb : StateDB)
    (totalMinerNum n : Z) (err : error) :
  level_gate cc header parent statedb totalMinerNum n = Some err ->
  err = InvalidMiner
  \/ (exists have want, err = PrimaryMinerMismatch have want)
  \/ (exists have want, err = DifficultyLevelMismatch have want).
Proof.
  unfold level_gate. intros Hres.
  destruct (IsValidMiner _ _ _ _ _ _ _) as [[isValidMiner level] preMinerid].
  repeat match type of Hres with
         | context [if ?x then _ else _] => destruct x
         end;
    injection Hres as <- || discriminate Hres; eauto.
Qed.

Lemma surfaced_not_too_fast (err : foreign_error) : surfaced err <> BlockTooFast.
Proof. destruct err; discriminate. Qed.

(** Behind the timing check no path returns [BlockTooFast]. *)
Lemma eligibility_stage_not_too_fast (header : Header) (parent : Block)
    (statedb : StateDB) (tstampSub : Z) :
  eligibility_stage cc header parent statedb tstampSub
  <> Returns (Some BlockTooFast).
Proof.
  unfold eligibility_stage, qr_stage. cbv zeta.
  destruct (IsMiner statedb _ _ _) as [isMiner flag].
  destruct isMiner; simpl.
  - destruct (big_Div tstampSub (BlockSlot cc)) as [n |]; [| discriminate].
    destruct (expected_qr cc header parent) as [qr [err |]].
    + intros Heq. injection Heq as Heq. now apply surfaced_not_too_fast in Heq.
    + destruct (qr_gate header qr) as [[err |] |] eqn:Hgate; [| | discriminate].
      * intros Heq. injection Heq as ->.
        apply qr_gate_errors in Hgate.
        destruct Hgate as [? | [? | ?]]; discriminate.
      * intros Heq. injection Heq as Heq.
        apply level_gate_errors in Heq.
        destruct Heq as [? | [(? & ? & ?) | (? & ? & ?)]]; discriminate.
  - destruct (flag =? 1); discriminate.
Qed.

End MinerFacts.

Section MinerClaims.
Context `{Externals} `{!MinerList} `{!Crypto} (cc : CommonConsts).

(** Past the QR gate, with a valid miner and the expected primary miner,
    only the check of the difficulty level is left. *)
Lemma ValidateMiner_at_level_check (block parent : Block) (statedb : StateDB)
    (level : Z) :
  reaches_level_check cc block parent statedb level ->
  ValidateMiner cc block parent statedb
  = Returns
      (let header := Blk.Header_ block in
       if Number header =? 1 then
         if negb (Int64 (DifficultyLevel header) =? 0) then
           Some (DifficultyLevelMismatch (DifficultyLevel header) 0)
         else None
       else
         if level >? Int64 (DifficultyLevel header) then
           Some (DifficultyLevelMismatch (DifficultyLevel header) level)
         else None).
Proof.
  intros (n & qr & preMinerid & Hreach & Hgate & Hvalid & Hprimary).
  rewrite (ValidateMiner_at_qr_gate cc _ _ _ _ _ Hreach).
  unfold qr_stage. rewrite Hgate. f_equal.
  unfold level_gate. rewrite Hvalid. cbn [negb]. rewrite Cmp_eq_0.
  unfold Big1.
  destruct Hprimary as [Hnone | Hsame].
  - rewrite Hnone. cbn [Z.eqb negb]. rewrite andb_false_r. reflexivity.
  - destruct (Int64 (ReadMinerNum statedb) =? 0); cbn [negb].
    + rewrite andb_false_r. reflexivity.
    + rewrite (bool_decide_eq_true_2 _ Hsame). reflexivity.
Qed.

(** C6, as amended. When the difference of the two timestamps is an
    [int64], [ValidateMiner] fails with [BlockTooFast] exactly when the
    difference is below [int64(BlockInterval)]; from [int64(BlockInterval)]
    on, validation goes on with the lookup of the registry. *)
Theorem ValidateMiner_timing (block parent : Block) (statedb : StateDB) :
  let tstampSub := Time (Blk.Header_ block) - Blk.Time_ parent in
  is_int64 tstampSub ->
  (ValidateMiner cc block parent statedb = Returns (Some BlockTooFast)
   <-> tstampSub < i64 (BlockInterval cc))
  /\ (i64 (BlockInterval cc) <= tstampSub ->
      ValidateMiner cc block parent statedb
      = eligibility_stage cc (Blk.Header_ block) parent statedb tstampSub).
Proof.
  intros tstampSub Hfit. unfold ValidateMiner. cbv zeta.
  fold tstampSub. rewrite (Int64_small _ Hfit).
  destruct (Z.ltb_spec tstampSub (i64 (BlockInterval cc))) as [Hlt | Hge].
  - split; [| lia]. split; [intros _; exact Hlt | reflexivity].
  - split; [| reflexivity]. split; [| lia].
    intros Hres. now apply eligibility_stage_not_too_fast in Hres.
Qed.

(** C2, as amended. At a block that comes to the QR computation, the
    expected QR value is the result of [CalQrOrIdNext] on the coinbase of
    the parent, the number of the block, and either the genesis constant,
    for block 1, or the whole miner QR signature of the parent; its error
    is returned, its value is the one the QR gate compares with. *)
Theorem ValidateMiner_expected_qr (block parent : Block) (statedb : StateDB)
    (n : Z) :
  let header := Blk.Header_ block in
  let tstampSub := Time header - Blk.Time_ parent in
  let qr_parent :=
    if Number header =? 1 then GenesisMinerQrSignature cc
    else MinerQrSignature (Blk.Header_ parent) in
  let call :=
    CalQrOrIdNext (Coinbase (Blk.Header_ parent)) (Number header) qr_parent in
  (Int64 tstampSub <? i64 (BlockInterval cc)) = false ->
  fst (IsMiner statedb (Coinbase header) (ReadMinerNum statedb) (Number header))
  = true ->
  big_Div tstampSub (BlockSlot cc) = Returns n ->
  expected_qr cc header parent = call
  /\ (forall err, snd call = Some err ->
      ValidateMiner cc block parent statedb = Returns (Some (surfaced err)))
  /\ (snd call = None ->
      ValidateMiner cc block parent statedb
      = qr_stage cc header parent statedb (ReadMinerNum statedb) n (fst call)).
Proof.
  intros header tstampSub qr_parent call Htime Hminer Hdiv.
  assert (Hcall : expected_qr cc header parent = call).
  { unfold expected_qr, preQrSignature_of. rewrite Cmp_eq_0. reflexivity. }
  split; [exact Hcall |].
  unfold ValidateMiner, eligibility_stage. cbv zeta.
  fold header. fold tstampSub. rewrite Htime, Hdiv, Hcall.
  destruct (IsMiner statedb _ _ _) as [isMiner flag].
  simpl in Hminer. subst isMiner. cbn [negb].
  destruct call as [qr err]. simpl. split.
  - intros err' ->. reflexivity.
  - intros ->. reflexivity.
Qed.

(** C5, as amended. At a block that comes to the QR gate and whose number
    is above 1 and below [2^63], [ValidateMiner] fails with
    [QrLengthInvalid] when the miner QR signature has not [PreQrLength]
    bytes, whatever the signature scheme; else with [QrMismatch] when its
    trailing 32 bytes are not the expected QR value; else with
    [InvalidQrSignature] when [VerifySig] refuses its leading 65 bytes for
    the expected QR value and the coinbase; else it goes on. At block 1 the
    gate is skipped. *)
Theorem ValidateMiner_qr_gate (block parent : Block) (statedb : StateDB)
    (n : Z) (qr : Hash) :
  reaches_qr_gate cc block parent statedb n qr ->
  let header := Blk.Header_ block in
  let sig := MinerQrSignature header in
  let rest :=
    Returns (level_gate cc header parent statedb (ReadMinerNum statedb) n) in
  let result := ValidateMiner cc block parent statedb in
  (1 < Number header < two63 ->
   (length sig <> PreQrLength -> result = Returns (Some QrLengthInvalid))
   /\ (length sig = PreQrLength -> drop 65 sig <> qr ->
       result = Returns (Some QrMismatch))
   /\ (length sig = PreQrLength -> drop 65 sig = qr ->
       VerifySig (take 65 sig) qr (Coinbase header) = Returns false ->
       result = Returns (Some InvalidQrSignature))
   /\ (length sig = PreQrLength -> drop 65 sig = qr ->
       VerifySig (take 65 sig) qr (Coinbase header) = Returns true ->
       result = rest))
  /\ (Number header = 1 -> result = rest).
Proof.
  intros Hreach header sig rest result. subst result.
  rewrite (ValidateMiner_at_qr_gate cc _ _ _ _ _ Hreach).
  fold header. unfold qr_stage. split.
  - intros [Hlo Hhi].
    assert (Hnum : 1 < Int64 (Number header)).
    { rewrite Int64_small; [exact Hlo |].
      unfold is_int64. rewrite two63_eq in *. lia. }
    split; [| split; [| split]].
    + intros Hlen. rewrite (qr_gate_length _ _ Hnum Hlen). reflexivity.
    + intros Hlen Hne. rewrite (qr_gate_checked _ _ Hnum Hlen).
      fold sig. rewrite (bool_decide_eq_false_2 _ Hne). reflexivity.
    + intros Hlen Heq Hsig. rewrite (qr_gate_checked _ _ Hnum Hlen).
      fold sig. rewrite (bool_decide_eq_true_2 _ Heq), Hsig. reflexivity.
    + intros Hlen Heq Hsig. rewrite (qr_gate_checked _ _ Hnum Hlen).
      fold sig. rewrite (bool_decide_eq_true_2 _ Heq), Hsig. reflexivity.
  - intros Hone. rewrite qr_gate_skipped; [reflexivity |].
    rewrite Hone. vm_compute. discriminate.
Qed.

(** C1, as amended. At a block that comes to the check of the difficulty
    level with a declared level that is an [int64]: when the number of the
    block is not 1, [ValidateMiner] fails with [DifficultyLevelMismatch]
    exactly when the declared level is below the computed level, and
    accepts a declared level that is at least the computed one; when the
    number is 1, it fails with [DifficultyLevelMismatch] exactly when the
    declared level is not 0. *)
Theorem ValidateMiner_difficulty_level (block parent : Block)
    (statedb : StateDB) (level : Z) :
  reaches_level_check cc block parent statedb level ->
  let header := Blk.Header_ block in
  let declared := DifficultyLevel header in
  let result := ValidateMiner cc block parent statedb in
  let mismatch :=
    exists have want, result = Returns (Some (DifficultyLevelMismatch have want)) in
  is_int64 declared ->
  (Number header <> 1 ->
   (mismatch <-> declared < level)
   /\ (declared < level ->
       result = Returns (Some (DifficultyLevelMismatch declared level)))
   /\ (level <= declared -> result = Returns None))
  /\ (Number header = 1 ->
      (mismatch <-> declared <> 0)
      /\ (declared <> 0 ->
          result = Returns (Some (DifficultyLevelMismatch declared 0)))
      /\ (declared = 0 -> result = Returns None)).
Proof.
  intros Hreach header declared result mismatch Hfit.
  subst mismatch result.
  rewrite (ValidateMiner_at_level_check _ _ _ _ Hreach). cbv zeta.
  fold header. fold declared. rewrite (Int64_small _ Hfit). split.
  - intros Hnum. apply Z.eqb_neq in Hnum. rewrite Hnum.
    rewrite Z.gtb_ltb.
    destruct (Z.ltb_spec declared level) as [Hlt | Hge].
    + split; [| split]; [| reflexivity | lia].
      split; [intros _; exact Hlt | intros _; eauto].
    + split; [| split]; [| lia | reflexivity].
      split; [| lia]. intros (have & want & Hres). discriminate.
  - intros Hnum. rewrite Hnum. cbn [Z.eqb Pos.eqb].
    destruct (Z.eqb_spec declared 0) as [Hzero | Hnz]; cbn [negb].
    + split; [| split]; [| congruence | reflexivity].
      split; [| congruence]. intros (have & want & Hres). discriminate.
    + split; [| split]; [| reflexivity | congruence].
      split; [intros _; exact Hnz | intros _; eauto].
Qed.

End MinerClaims.

(** ** The validator of miners on the sample chain *)

Section SampleRuns.

#[local] Existing Instance Sample.ext.
#[local] Existing Instance Sample.minerlist.
#[local] Existing Instance Sample.crypto.

(** Block 11 with the digest that the sample QR function computes comes
    to the QR gate with rotation counter 2, and to the check of the
    difficulty level with computed level 2. *)
Lemma sample_reaches_qr_gate (level : Z) (digest : Hash) :
  reaches_qr_gate Sample.consts (Sample.block11 level digest) Sample.parent10
    Sample.registry 2 Sample.qr_head.
Proof. repeat split; vm_compute; reflexivity. Qed.

Lemma sample_reaches_level_check (level : Z) :
  reaches_level_check Sample.consts (Sample.block11 level Sample.qr_head)
    Sample.parent10 Sample.registry 2.
Proof.
  exists 2, Sample.qr_head, 0. split; [apply sample_reaches_qr_gate |].
  split; [vm_compute; reflexivity |]. split; [vm_compute; reflexivity |].
  right. vm_compute. reflexivity.
Qed.

(** C1, as stated, fails (scenario 1 of the specification): behind a
    parent at height 10 the computed level is 2; the block that declares
    level 5 is accepted, and the block that declares level 1 is the one
    refused with [DifficultyLevelMismatch]. *)
Lemma ValidateMiner_level_direction :
  reaches_level_check Sample.consts (Sample.block11 5 Sample.qr_head)
    Sample.parent10 Sample.registry 2
  /\ 1 < Number (header (Sample.block11 5 Sample.qr_head))
  /\ ValidateMiner Sample.consts (Sample.block11 5 Sample.qr_head)
       Sample.parent10 Sample.registry
     = Returns None
  /\ ValidateMiner Sample.consts (Sample.block11 1 Sample.qr_head)
       Sample.parent10 Sample.registry
     = Returns (Some (DifficultyLevelMismatch 1 2)).
Proof.
  split; [apply sample_reaches_level_check |].
  repeat split; vm_compute; reflexivity.
Qed.

Lemma ValidateMiner_difficulty_level_witness :
  ValidateMiner Sample.consts (Sample.block11 1 Sample.qr_head)
    Sample.parent10 Sample.registry
  = Returns (Some (DifficultyLevelMismatch 1 2))
  /\ ValidateMiner Sample.consts (Sample.block11 2 Sample.qr_head)
       Sample.parent10 Sample.registry
     = Returns None.
Proof.
  split.
  - destruct (ValidateMiner_difficulty_level Sample.consts
                (Sample.block11 1 Sample.qr_head) Sample.parent10
                Sample.registry 2 (sample_reaches_level_check 1))
      as [Hlater _].
    { unfold is_int64. vm_compute. split; [discriminate | reflexivity]. }
    destruct Hlater as (_ & Hlow & _).
    { vm_compute. discriminate. }
    apply Hlow. vm_compute. reflexivity.
  - destruct (ValidateMiner_difficulty_level Sample.consts
                (Sample.block11 2 Sample.qr_head) Sample.parent10
                Sample.registry 2 (sample_reaches_level_check 2))
      as [Hlater _].
    { unfold is_int64. vm_compute. split; [discriminate | reflexivity]. }
    destruct Hlater as (_ & _ & Hhigh).
    { vm_compute. discriminate. }
    apply Hhigh. vm_compute. discriminate.
Defined.

(** C2, as stated, fails: the QR function is called on the whole miner QR
    signature of the parent. The sample QR function reads the first 32
    bytes of what it is given: the expected QR value is made of the head of
    the signature, not of the digest segment at offset 65, and the block
    that carries the value computed from the digest segment is refused. *)
Lemma expected_qr_whole_signature :
  let header := header (Sample.block11 2 Sample.qr_head) in
  expected_qr Sample.consts header Sample.parent10 = (Sample.qr_head, None)
  /\ CalQrOrIdNext (Blk.Coinbase_ Sample.parent10) (Number header)
       (drop 65 (Blk.MinerQrSignature_ Sample.parent10))
     = (Sample.qr_tail, None)
  /\ Sample.qr_head <> Sample.qr_tail
  /\ ValidateMiner Sample.consts (Sample.block11 2 Sample.qr_tail)
       Sample.parent10 Sample.registry
     = Returns (Some QrMismatch)
  /\ ValidateMiner Sample.consts (Sample.block11 2 Sample.qr_head)
       Sample.parent10 Sample.registry
     = Returns None.
Proof.
  cbv zeta. repeat split; try (vm_compute; reflexivity).
  vm_compute. discriminate.
Qed.

Lemma ValidateMiner_expected_qr_witness :
  expected_qr Sample.consts (header (Sample.block11 2 Sample.qr_head))
    Sample.parent10
  = CalQrOrIdNext Sample.miner_a 11 Sample.parent_sig.
Proof.
  destruct (ValidateMiner_expected_qr Sample.consts
              (Sample.block11 2 Sample.qr_head) Sample.parent10
              Sample.registry 2) as [Hcall _].
  - vm_compute. reflexivity.
  - vm_compute. reflexivity.
  - vm_compute. reflexivity.
  - exact Hcall.
Defined.

(** C5, as stated, fails: a block whose number is [2^63] is above 1, its
    number read as an [int64] is not, and with an empty miner QR signature
    it is accepted. *)
Lemma ValidateMiner_qr_gate_wraps :
  let block := Sample.mk_block (Sample.mk_header two63 130 2 []) in
  1 < Number (header block)
  /\ length (MinerQrSignature (header block)) <> PreQrLength
  /\ Int64 (Number (header block)) = - two63
  /\ ValidateMiner Sample.consts block Sample.parent10 Sample.registry
     = Returns None.
Proof.
  cbv zeta. split; [vm_compute; reflexivity |].
  split; [vm_compute; discriminate |].
  split; vm_compute; reflexivity.
Qed.

Lemma ValidateMiner_qr_gate_witness :
  ValidateMiner Sample.consts (Sample.block11 2 Sample.qr_tail)
    Sample.parent10 Sample.registry
  = Returns (Some QrMismatch)
  /\ ValidateMiner Sample.consts
       (Sample.mk_block (Sample.mk_header 11 130 2 Sample.sig_a))
       Sample.parent10 Sample.registry
     = Returns (Some QrLengthInvalid).
Proof.
  split.
  - destruct (ValidateMiner_qr_gate Sample.consts
                (Sample.block11 2 Sample.qr_tail) Sample.parent10
                Sample.registry 2 Sample.qr_head
                (sample_reaches_qr_gate 2 Sample.qr_tail)) as [Hlater _].
    destruct Hlater as (_ & Hmismatch & _).
    { vm_compute. split; reflexivity. }
    apply Hmismatch.
    + vm_compute. reflexivity.
    + vm_compute. discriminate.
  - destruct (ValidateMiner_qr_gate Sample.consts
                (Sample.mk_block (Sample.mk_header 11 130 2 Sample.sig_a))
                Sample.parent10 Sample.registry 2 Sample.qr_head)
      as [Hlater _].
    { repeat split; vm_compute; reflexivity. }
    destruct Hlater as (Hlength & _).
    { vm_compute. split; reflexivity. }
    apply Hlength. vm_compute. discriminate.
Defined.

(** C6, as stated, fails: with timestamps [2^64] apart, the difference
    read as an [int64] is 0, and the block is refused as too fast. *)
Lemma ValidateMiner_timing_wraps :
  let block :=
    Sample.mk_block (Sample.mk_header 11 (two64 + 100) 2
                       (Sample.sig_a ++ Sample.qr_head)) in
  Time (header block) - Blk.Time_ Sample.parent10 = two64
  /\ ~ Time (header block) - Blk.Time_ Sample.parent10
       < i64 (BlockInterval Sample.consts)
  /\ ValidateMiner Sample.consts block Sample.parent10 Sample.registry
     = Returns (Some BlockTooFast).
Proof.
  cbv zeta. split; [vm_compute; reflexivity |].
  split; [vm_compute; discriminate |].
  vm_compute. reflexivity.
Qed.

Lemma ValidateMiner_timing_witness :
  ValidateMiner Sample.consts
    (Sample.mk_block (Sample.mk_header 11 103 2 (Sample.sig_a ++ Sample.qr_head)))
    Sample.parent10 Sample.registry
  = Returns (Some BlockTooFast)
  /\ ValidateMiner Sample.consts (Sample.block11 2 Sample.qr_head)
       Sample.parent10 Sample.registry
     <> Returns (Some BlockTooFast).
Proof.
  split.
  - apply ValidateMiner_timing.
    + unfold is_int64. vm_compute. split; [discriminate | reflexivity].
    + vm_compute. reflexivity.
  - intros Hfast. apply ValidateMiner_timing in Hfast.
    + vm_compute in Hfast. discriminate Hfast.
    + unfold is_int64. vm_compute. split; [discriminate | reflexivity].
Defined.

End SampleRuns.

(** * Further properties *)

(** ** The gas-limit policy on parents with an exact decay *)

Section GasLimitPolicy.
Context `{Externals} (gp : GasParams).

(** For a gas limit from the divisor up to [2^63] the three quantities of
    the policy are the exact ones. *)
Lemma gas_limit_exact (parent : Block) :
  GasLimitBoundDivisor <= Blk.GasLimit_ parent < two63 ->
  0 <= gas_decay parent <= Blk.GasLimit_ parent
  /\ gas_lowered parent
     = Blk.GasLimit_ parent - gas_decay parent + gas_contrib parent
  /\ gas_raised parent = Blk.GasLimit_ parent + gas_decay parent.
Proof.
  intros [Hlo Hhi]. rewrite two63_eq in Hhi.
  destruct (gas_decay_exact parent Hlo ltac:(rewrite two64_eq; lia))
    as [_ [Hd0 HdL]].
  pose proof (gas_contrib_range parent) as Hc.
  split; [lia |]. split.
  - unfold gas_lowered.
    rewrite (u64_small (Blk.GasLimit_ parent - gas_decay parent))
      by (unfold is_uint64; rewrite two64_eq; lia).
    apply u64_small. unfold is_uint64. rewrite two64_eq. lia.
  - unfold gas_raised. apply u64_small. unfold is_uint64.
    rewrite two64_eq. lia.
Qed.

(** Case analysis on the comparisons that [CalcGasLimit] makes. *)
Ltac gas_cases :=
  unfold CalcGasLimit; cbv zeta;
  repeat match goal with
         | |- context [?a >? ?b] => rewrite (Z.gtb_ltb a b)
         end;
  repeat match goal with
         | |- context [if ?a <? ?b then _ else _] =>
             lazymatch a with
             | context [if _ then _ else _] => fail
             | _ => destruct (Z.ltb_spec a b)
             end
         end.

(** X1. A parent at or above the target is never followed by a limit below
    the target. *)
Theorem CalcGasLimit_stays_above_target (parent : Block) :
  GasLimitBoundDivisor <= Blk.GasLimit_ parent < two63 ->
  TargetGasLimit gp <= Blk.GasLimit_ parent ->
  TargetGasLimit gp <= CalcGasLimit gp parent.
Proof.
  intros Hrange Htarget.
  destruct (gas_limit_exact parent Hrange) as (Hd & Hlow & Hup).
  gas_cases; lia.
Qed.

(** X2. A parent at or below the target is never followed by a lower
    limit; and when, besides, [MinGasLimit] is at most the target and
    [contrib] at most [decay], the next limit does not pass the target. *)
Theorem CalcGasLimit_rises_to_target (parent : Block) :
  GasLimitBoundDivisor <= Blk.GasLimit_ parent < two63 ->
  Blk.GasLimit_ parent <= TargetGasLimit gp ->
  Blk.GasLimit_ parent <= CalcGasLimit gp parent
  /\ (MinGasLimit gp <= TargetGasLimit gp ->
      gas_contrib parent <= gas_decay parent ->
      CalcGasLimit gp parent <= TargetGasLimit gp).
Proof.
  intros Hrange Htarget.
  destruct (gas_limit_exact parent Hrange) as (Hd & Hlow & Hup).
  split; [| intros Hmin Hcontrib]; gas_cases; lia.
Qed.

(** X3. With the same gas limit, a parent that used more gas is never
    followed by a lower limit, as long as [gasUsed + gasUsed/2] fits in
    64 bits. *)
Theorem CalcGasLimit_monotone_in_gas_used (p1 p2 : Block) :
  GasLimitBoundDivisor <= Blk.GasLimit_ p1 < two63 ->
  Blk.GasLimit_ p2 = Blk.GasLimit_ p1 ->
  0 <= Blk.GasUsed_ p1 <= Blk.GasUsed_ p2 ->
  Blk.GasUsed_ p2 + Blk.GasUsed_ p2 / 2 < two64 ->
  CalcGasLimit gp p1 <= CalcGasLimit gp p2.
Proof.
  intros Hrange Hsame [Hu0 Hu] Hfit.
  assert (Hrange2 : GasLimitBoundDivisor <= Blk.GasLimit_ p2 < two63)
    by (rewrite Hsame; exact Hrange).
  destruct (gas_limit_exact p1 Hrange) as (Hd1 & Hlow1 & Hup1).
  destruct (gas_limit_exact p2 Hrange2) as (Hd2 & Hlow2 & Hup2).
  assert (Hdecay : gas_decay p2 = gas_decay p1)
    by (unfold gas_decay; rewrite Hsame; reflexivity).
  assert (Hhalf : Blk.GasUsed_ p1 / 2 <= Blk.GasUsed_ p2 / 2)
    by (apply Z.div_le_mono; lia).
  assert (Hhalf0 : 0 <= Blk.GasUsed_ p1 / 2) by (apply Z.div_pos; lia).
  assert (Hcontrib : gas_contrib p1 <= gas_contrib p2).
  { unfold gas_contrib, GasLimitBoundDivisor.
    rewrite !u64_small by (unfold is_uint64; lia).
    apply Z.div_le_mono; lia. }
  rewrite Hdecay, Hsame in *.
  unfold CalcGasLimit. cbv zeta. rewrite Hlow1, Hlow2, Hup1, Hup2.
  rewrite !Z.gtb_ltb.
  repeat match goal with
         | |- context [if ?a <? ?b then _ else _] =>
             lazymatch a with
             | context [if _ then _ else _] => fail
             | _ => destruct (Z.ltb_spec a b)
             end
         end; lia.
Qed.

(** X4. The sum [gasUsed + gasUsed/2] is made in [uint64]: when it passes
    [2^64] the contribution is computed from what is left of it, and is
    below the exact one. *)
Theorem gas_contrib_wraps (parent : Block) :
  is_uint64 (Blk.GasUsed_ parent) ->
  (Blk.GasUsed_ parent + Blk.GasUsed_ parent / 2 < two64 ->
   gas_contrib parent
   = (Blk.GasUsed_ parent + Blk.GasUsed_ parent / 2) / GasLimitBoundDivisor)
  /\ (two64 <= Blk.GasUsed_ parent + Blk.GasUsed_ parent / 2 ->
      gas_contrib parent
      = (Blk.GasUsed_ parent + Blk.GasUsed_ parent / 2 - two64)
        / GasLimitBoundDivisor
      /\ gas_contrib parent
         < (Blk.GasUsed_ parent + Blk.GasUsed_ parent / 2)
           / GasLimitBoundDivisor).
Proof.
  intros [Hu0 Hu1]. unfold gas_contrib, GasLimitBoundDivisor.
  assert (Hhalf : 0 <= Blk.GasUsed_ parent / 2 <= Blk.GasUsed_ parent).
  { split; [apply Z.div_pos; lia |]. apply Z.div_le_upper_bound; lia. }
  split.
  - intros Hfit. rewrite u64_small by (unfold is_uint64; lia). reflexivity.
  - intros Hover.
    rewrite (u64_shift (Blk.GasUsed_ parent + Blk.GasUsed_ parent / 2) 1
               (Blk.GasUsed_ parent + Blk.GasUsed_ parent / 2 - two64))
      by (unfold is_uint64; lia).
    split; [reflexivity |].
    rewrite two64_eq in *.
    apply Z.div_lt_upper_bound; [lia |].
    pose proof (Z.mul_div_le
                  (Blk.GasUsed_ parent + Blk.GasUsed_ parent / 2) 1024
                  ltac:(lia)) as Hle.
    pose proof (Z.mod_pos_bound
                  (Blk.GasUsed_ parent + Blk.GasUsed_ parent / 2) 1024
                  ltac:(lia)) as Hmod.
    pose proof (Z.div_mod
                  (Blk.GasUsed_ parent + Blk.GasUsed_ parent / 2) 1024
                  ltac:(lia)) as Hdm.
    lia.
Qed.

End GasLimitPolicy.

Lemma CalcGasLimit_stays_above_target_witness :
  TargetGasLimit default_gas_params
  <= CalcGasLimit default_gas_params (Sample.gas_block 10000000 6000000).
Proof.
  apply CalcGasLimit_stays_above_target.
  - vm_compute. split; [discriminate | reflexivity].
  - vm_compute. discriminate.
Defined.

Lemma CalcGasLimit_rises_to_target_witness :
  4000000 <= CalcGasLimit default_gas_params (Sample.gas_block 4000000 1000000)
  /\ CalcGasLimit default_gas_params (Sample.gas_block 4000000 1000000)
     <= 4712388.
Proof.
  destruct (CalcGasLimit_rises_to_target default_gas_params
              (Sample.gas_block 4000000 1000000)) as [Hlow Hhigh].
  - vm_compute. split; [discriminate | reflexivity].
  - vm_compute. discriminate.
  - split; [exact Hlow |]. apply Hhigh; vm_compute; discriminate.
Defined.

Lemma CalcGasLimit_monotone_in_gas_used_witness :
  CalcGasLimit default_gas_params (Sample.gas_block 10000000 0)
  <= CalcGasLimit default_gas_params (Sample.gas_block 10000000 6000000).
Proof.
  apply CalcGasLimit_monotone_in_gas_used.
  - vm_compute. split; [discriminate | reflexivity].
  - reflexivity.
  - vm_compute. split; discriminate.
  - vm_compute. reflexivity.
Defined.

Lemma gas_contrib_wraps_witness :
  gas_contrib (Sample.gas_block 10000000 (two64 - 1))
  = (two64 - 1 + (two64 - 1) / 2 - two64) / GasLimitBoundDivisor.
Proof.
  destruct (gas_contrib_wraps (Sample.gas_block 10000000 (two64 - 1)))
    as [_ Hover].
  - vm_compute. split; [discriminate | reflexivity].
  - destruct Hover as [Hvalue _].
    + vm_compute. discriminate.
    + exact Hvalue.
Defined.

(** ** What [ValidateBody] and [ValidateState] accept *)

Section AcceptanceOfBodyAndState.
Context `{Externals}.

(** X5. [ValidateBody] returns no error exactly when the block is not
    known, its parent has state, [VerifyUncles] returns no error on the
    state half of [State], and the uncle root and the transaction root of
    the header are those of the block. *)
Theorem ValidateBody_accepts_iff (v : BlockValidator) (block : Block) :
  ValidateBody v block = None
  <-> linkable v block
      /\ @VerifyUncles _ (engine v) (bc v) block (fst (State (bc v))) = None
      /\ CalcUncleHash (Blk.Uncles block) = UncleHash (Blk.Header_ block)
      /\ DeriveShaTxs (Blk.Transactions block) = TxHash (Blk.Header_ block).
Proof.
  unfold ValidateBody, linkable, validate_body_content.
  destruct (HasBlockAndState (bc v) (Blk.Hash_ block) _);
    [split; [discriminate | intros [[? _] _]; discriminate] |].
  destruct (HasBlockAndState (bc v) (Blk.ParentHash_ block) _); cbn [negb].
  - destruct (State (bc v)) as [state err0]. cbn [fst].
    destruct (VerifyUncles (bc v) block state) as [err |];
      [split; [discriminate | intros (_ & ? & _); discriminate] |].
    destruct (bool_decide_reflect
                (CalcUncleHash (Blk.Uncles block) = UncleHash (Blk.Header_ block)))
      as [Huncle | Huncle]; cbn [negb];
      [| split; [discriminate | intros (_ & _ & ? & _); contradiction]].
    destruct (bool_decide_reflect
                (DeriveShaTxs (Blk.Transactions block) = TxHash (Blk.Header_ block)))
      as [Htx | Htx]; cbn [negb];
      [| split; [discriminate | intros (_ & _ & _ & ?); contradiction]].
    split; [intros _; repeat split; assumption | reflexivity].
  - split; [| intros [[_ ?] _]; discriminate].
    destruct (HasBlock (bc v) _ _); discriminate.
Qed.

(** X6. Past the linkage checks and the check of the uncles, the uncle
    root is compared before the transaction root, and each error carries
    the recomputed root first and the root of the header second. *)
Theorem ValidateBody_root_order (v : BlockValidator) (block : Block) :
  linkable v block ->
  @VerifyUncles _ (engine v) (bc v) block (fst (State (bc v))) = None ->
  let header := Blk.Header_ block in
  let uncleHash := CalcUncleHash (Blk.Uncles block) in
  let txHash := DeriveShaTxs (Blk.Transactions block) in
  (uncleHash <> UncleHash header ->
   ValidateBody v block = Some (UncleRootMismatch uncleHash (UncleHash header)))
  /\ (uncleHash = UncleHash header -> txHash <> TxHash header ->
      ValidateBody v block = Some (TxRootMismatch txHash (TxHash header))).
Proof.
  intros Hlink Huncles header uncleHash txHash.
  rewrite (ValidateBody_linkable v block Hlink).
  unfold validate_body_content.
  destruct (State (bc v)) as [state err0]. cbn [fst] in Huncles.
  rewrite Huncles. fold header. fold uncleHash. fold txHash. split.
  - intros Hne. rewrite (bool_decide_eq_false_2 _ Hne). reflexivity.
  - intros Heq Hne.
    rewrite (bool_decide_eq_true_2 _ Heq), (bool_decide_eq_false_2 _ Hne).
    reflexivity.
Qed.

(** X7. The number of the parent is computed in [uint64]: for a block
    with number 0 it is [2^64 - 1]. On a chain without a block of that
    number under the parent hash, such a block is never accepted: the
    answer is [ErrKnownBlock] when the block itself has state in the chain,
    and [ErrUnknownAncestor] otherwise. *)
Theorem ValidateBody_number_zero (v : BlockValidator) (block : Block) :
  Number (Blk.Header_ block) = 0 ->
  chain_index (bc v) !! (Blk.ParentHash_ block, two64 - 1) = None ->
  parent_number block = two64 - 1
  /\ ValidateBody v block
     = Some (if HasBlockAndState (bc v) (Blk.Hash_ block) 0 then ErrKnownBlock
             else ErrUnknownAncestor).
Proof.
  intros Hzero Habsent.
  assert (Hnum : Blk.NumberU64 block = 0).
  { unfold Blk.NumberU64. unfold Blk.Header_ in Hzero. rewrite Hzero.
    reflexivity. }
  assert (Hparent : parent_number block = two64 - 1).
  { unfold parent_number. rewrite Hnum. reflexivity. }
  split; [exact Hparent |].
  unfold ValidateBody. rewrite Hnum, Hparent.
  destruct (HasBlockAndState (bc v) (Blk.Hash_ block) 0); [reflexivity |].
  unfold HasBlockAndState, HasBlock. rewrite Habsent. cbn [negb].
  rewrite bool_decide_eq_false_2; [reflexivity |].
  intros [root Hsome]. discriminate.
Qed.

(** X8. [ValidateState] returns no error exactly when the gas used, the
    bloom, the receipt root and the state root recomputed from the
    execution are those of the header. *)
Theorem ValidateState_accepts_iff (v : BlockValidator) (block parent : Block)
    (statedb : StateDB) (receipts : list Receipt) (usedGas : Z) :
  let header := Blk.Header_ block in
  ValidateState v block parent statedb receipts usedGas = None
  <-> GasUsed header = usedGas
      /\ CreateBloom receipts = Bloom header
      /\ DeriveShaReceipts receipts = ReceiptHash header
      /\ Root header
         = IntermediateRoot statedb (IsEIP158 (config v) (Number header)).
Proof.
  cbv zeta. unfold ValidateState, Blk.GasUsed_, Blk.Header_.
  destruct (Z.eqb_spec (GasUsed (header block)) usedGas) as [Hgas | Hgas];
    cbn [negb];
    [| split; [discriminate | intros [? _]; contradiction]].
  destruct (bool_decide_reflect (CreateBloom receipts = Bloom (header block)))
    as [Hbloom | Hbloom]; cbn [negb];
    [| split; [discriminate | intros (_ & ? & _); contradiction]].
  destruct (bool_decide_reflect
              (DeriveShaReceipts receipts = ReceiptHash (header block)))
    as [Hsha | Hsha]; cbn [negb];
    [| split; [discriminate | intros (_ & _ & ? & _); contradiction]].
  destruct (bool_decide_reflect
              (Root (header block)
               = IntermediateRoot statedb
                   (IsEIP158 (config v) (Number (header block)))))
    as [Hroot | Hroot]; cbn [negb];
    [| split; [discriminate | intros (_ & _ & _ & ?); contradiction]].
  split; [intros _; repeat split; assumption | reflexivity].
Qed.

End AcceptanceOfBodyAndState.

Lemma ValidateBody_root_order_witness :
  ValidateBody (Sample.validator Sample.chain)
    (Sample.mk_block Sample.header10_bad_uncle_root)
  = Some (UncleRootMismatch Sample.empty_root (Sample.number_hash 1)).
Proof.
  destruct (ValidateBody_root_order (Sample.validator Sample.chain)
              (Sample.mk_block Sample.header10_bad_uncle_root))
    as [Huncle _].
  - split; vm_compute; reflexivity.
  - vm_compute. reflexivity.
  - apply Huncle. vm_compute. discriminate.
Defined.

Lemma ValidateBody_number_zero_witness :
  ValidateBody (Sample.validator Sample.chain)
    (Sample.mk_block (Sample.mk_header 0 0 0 []))
  = Some ErrUnknownAncestor.
Proof.
  destruct (ValidateBody_number_zero (Sample.validator Sample.chain)
              (Sample.mk_block (Sample.mk_header 0 0 0 []))) as [_ Hres].
  - reflexivity.
  - vm_compute. reflexivity.
  - rewrite Hres. vm_compute. reflexivity.
Defined.

(** ** [VerifySig] *)

Section SignatureFacts.
Context `{Crypto}.

Lemma VerifySig_true_inv (sig : bytes) (hash : Hash) (miner : Address) :
  VerifySig sig hash miner = Returns true ->
  exists pub key,
    Ecrecover hash sig = (pub, None)
    /\ VerifySignature pub hash (take 64 sig) = true
    /\ ToECDSAPub pub = Some key
    /\ PubkeyToAddress key = miner.
Proof.
  unfold VerifySig, slice_to.
  destruct (Ecrecover hash sig) as [pub [err |]]; [discriminate |].
  destruct (64 <=? length sig)%nat; [| discriminate].
  destruct (VerifySignature pub hash (take 64 sig)) eqn:Hverify;
    [| discriminate].
  destruct (ToECDSAPub pub) as [key |] eqn:Hkey; [| discriminate].
  intros Hres. injection Hres as Hres. apply bool_decide_eq_true in Hres.
  exists pub, key. repeat split; assumption.
Qed.

(** X9. A signature and a digest are accepted for at most one address:
    once [VerifySig] returns true for an address, it returns false for
    every other one. *)
Theorem VerifySig_one_address (sig : bytes) (hash : Hash) (a b : Address) :
  VerifySig sig hash a = Returns true ->
  (VerifySig sig hash b = Returns true -> a = b)
  /\ (a <> b -> VerifySig sig hash b = Returns false).
Proof.
  intros Ha.
  destruct (VerifySig_true_inv _ _ _ Ha) as (pub & key & Hrec & Hver & Hkey & Haddr).
  assert (Hlen : (64 <=? length sig)%nat = true).
  { revert Ha. unfold VerifySig, slice_to. rewrite Hrec.
    destruct (64 <=? length sig)%nat; [reflexivity | discriminate]. }
  assert (Hb : VerifySig sig hash b = Returns (bool_decide (a = b))).
  { unfold VerifySig, slice_to. rewrite Hrec, Hlen, Hver, Hkey, Haddr.
    reflexivity. }
  rewrite Hb. split.
  - intros Hres. injection Hres as Hres. now apply bool_decide_eq_true in Hres.
  - intros Hne. rewrite (bool_decide_eq_false_2 _ Hne). reflexivity.
Qed.

(** X10. On a signature of at least 64 bytes, [VerifySig] panics exactly
    when the key is recovered, the signature verifies against it, and
    [ToECDSAPub] returns nil for it. *)
Theorem VerifySig_panics_iff (sig : bytes) (hash : Hash) (miner : Address) :
  (64 <= length sig)%nat ->
  VerifySig sig hash miner = Panics
  <-> exists pub,
        Ecrecover hash sig = (pub, None)
        /\ VerifySignature pub hash (take 64 sig) = true
        /\ ToECDSAPub pub = None.
Proof.
  intros Hlen. apply Nat.leb_le in Hlen.
  unfold VerifySig, slice_to. rewrite Hlen.
  destruct (Ecrecover hash sig) as [pub [err |]].
  - split; [discriminate |]. intros (pub' & Heq & _). discriminate.
  - destruct (VerifySignature pub hash (take 64 sig)) eqn:Hverify.
    + destruct (ToECDSAPub pub) as [key |] eqn:Hkey.
      * split; [discriminate |].
        intros (pub' & Heq & _ & Hkey'). injection Heq as <-.
        rewrite Hkey in Hkey'. discriminate.
      * split; [| reflexivity]. intros _. exists pub. repeat split; assumption.
    + split; [discriminate |].
      intros (pub' & Heq & Hverify' & _). injection Heq as <-.
      rewrite Hverify in Hverify'. discriminate.
Qed.

End SignatureFacts.

Lemma VerifySig_one_address_witness :
  @VerifySig Sample.crypto Sample.sig_a Sample.empty_root Sample.miner_b
  = Returns false.
Proof.
  destruct (@VerifySig_one_address Sample.crypto Sample.sig_a
              Sample.empty_root Sample.miner_a Sample.miner_b) as [_ Hother].
  - vm_compute. reflexivity.
  - apply Hother. vm_compute. discriminate.
Defined.

Lemma VerifySig_panics_iff_witness :
  @VerifySig Sample.crypto_nil_key Sample.sig_a Sample.empty_root Sample.miner_a
  = Panics.
Proof.
  apply VerifySig_panics_iff.
  - apply Nat.leb_le. vm_compute. reflexivity.
  - exists []. repeat split; reflexivity.
Defined.

(** ** The gates of [ValidateMiner] *)

Section MinerGates.
Context `{Externals} `{!MinerList} `{!Crypto} (cc : CommonConsts).

(** X11. Past the timing check, a coinbase that [IsMiner] refuses is
    answered before anything else is computed: [MinerPunished] when the
    flag is 1, [MinerNotRegistered] otherwise. *)
Theorem ValidateMiner_not_a_miner (block parent : Block) (statedb : StateDB)
    (flag : Z) :
  (Int64 (Time (Blk.Header_ block) - Blk.Time_ parent)
   <? i64 (BlockInterval cc)) = false ->
  IsMiner statedb (Coinbase (Blk.Header_ block)) (ReadMinerNum statedb)
    (Number (Blk.Header_ block)) = (false, flag) ->
  (flag = 1 ->
   ValidateMiner cc block parent statedb = Returns (Some MinerPunished))
  /\ (flag <> 1 ->
      ValidateMiner cc block parent statedb = Returns (Some MinerNotRegistered)).
Proof.
  intros Htime Hminer. unfold ValidateMiner, eligibility_stage. cbv zeta.
  rewrite Htime, Hminer. cbn [negb]. split.
  - intros ->. reflexivity.
  - intros Hflag. apply Z.eqb_neq in Hflag. rewrite Hflag. reflexivity.
Qed.

(** X12. Past the QR gate: a miner that [IsValidMiner] refuses gives
    [InvalidMiner]; with a valid miner and a miner count that is not zero,
    a primary miner other than the registered address of the previous
    primary miner gives [PrimaryMinerMismatch] with the two addresses; with
    a miner count of zero the primary miner is not looked at. *)
Theorem ValidateMiner_miner_and_primary (block parent : Block)
    (statedb : StateDB) (n : Z) (qr : Hash) (valid : bool)
    (level preMinerid : Z) :
  reaches_qr_gate cc block parent statedb n qr ->
  let header := Blk.Header_ block in
  let result := ValidateMiner cc block parent statedb in
  let expected := BytesToAddress (ReadMinerAddress statedb preMinerid) in
  qr_gate header qr = Returns None ->
  IsValidMiner statedb (Coinbase header) (Blk.Coinbase_ parent)
    (preQrSignature_of cc header parent) (Number header)
    (ReadMinerNum statedb) n = (valid, level, preMinerid) ->
  (valid = false -> result = Returns (Some InvalidMiner))
  /\ (valid = true -> Int64 (ReadMinerNum statedb) <> 0 ->
      PrimaryMiner header <> expected ->
      result = Returns (Some (PrimaryMinerMismatch (PrimaryMiner header) expected)))
  /\ (valid = true -> Int64 (ReadMinerNum statedb) = 0 ->
      forall have want,
        result <> Returns (Some (PrimaryMinerMismatch have want))).
Proof.
  intros Hreach header result expected Hgate Hvalid. subst result.
  rewrite (ValidateMiner_at_qr_gate cc _ _ _ _ _ Hreach).
  unfold qr_stage. fold header. rewrite Hgate.
  unfold level_gate. rewrite Hvalid. split; [| split].
  - intros ->. reflexivity.
  - intros -> Hcount Hprimary. cbn [negb].
    apply Z.eqb_neq in Hcount. rewrite Hcount. cbn [negb].
    fold expected. rewrite (bool_decide_eq_false_2 _ Hprimary). reflexivity.
  - intros -> Hcount have want. cbn [negb]. rewrite Hcount.
    cbn [Z.eqb negb]. rewrite andb_false_r.
    repeat match goal with
           | |- context [if ?c then _ else _] => destruct c
           end; discriminate.
Qed.

(** X13. [ValidateMiner] returns no error exactly when the block comes to
    the check of the difficulty level and passes it: at block 1 with a
    declared level that reads 0, elsewhere with a declared level that reads
    at least the computed level. *)
Theorem ValidateMiner_accepts_iff (block parent : Block) (statedb : StateDB) :
  let header := Blk.Header_ block in
  ValidateMiner cc block parent statedb = Returns None
  <-> exists level,
        reaches_level_check cc block parent statedb level
        /\ ((Number header = 1 /\ Int64 (DifficultyLevel header) = 0)
            \/ (Number header <> 1 /\ level <= Int64 (DifficultyLevel header))).
Proof.
  intros header. split.
  - unfold ValidateMiner, eligibility_stage. cbv zeta. fold header.
    destruct (Int64 (Time header - Blk.Time_ parent) <? i64 (BlockInterval cc))
      eqn:Htime; [discriminate |].
    destruct (IsMiner statedb (Coinbase header) (ReadMinerNum statedb)
                (Number header)) as [isMiner flag] eqn:Hminer.
    destruct isMiner; cbn [negb]; [| destruct (flag =? 1); discriminate].
    destruct (big_Div (Time header - Blk.Time_ parent) (BlockSlot cc))
      as [n |] eqn:Hdiv; [| discriminate].
    destruct (expected_qr cc header parent) as [qr [err |]] eqn:Hqr;
      [discriminate |].
    unfold qr_stage.
    destruct (qr_gate header qr) as [[err |] |] eqn:Hgate; try discriminate.
    intros Hres. injection Hres as Hlevel. revert Hlevel. unfold level_gate.
    destruct (IsValidMiner statedb (Coinbase header) (Blk.Coinbase_ parent)
                (preQrSignature_of cc header parent) (Number header)
                (ReadMinerNum statedb) n)
      as [[valid level] preMinerid] eqn:Hvalid.
    destruct valid; cbn [negb]; [| discriminate].
    rewrite Cmp_eq_0. unfold Big1.
    destruct (Int64 (ReadMinerNum statedb) =? 0) eqn:Hcount; cbn [negb].
    + rewrite andb_false_r. intros Hlevel. exists level. split.
      * exists n, qr, preMinerid. fold header.
        split; [| split; [exact Hgate | split; [exact Hvalid |]]].
        -- unfold reaches_qr_gate. fold header. rewrite Hminer.
           repeat split; assumption.
        -- left. now apply Z.eqb_eq.
      * destruct (Z.eqb_spec (Number header) 1) as [Hone | Hone].
        -- left. split; [exact Hone |].
           destruct (Z.eqb_spec (Int64 (DifficultyLevel header)) 0);
             [assumption | discriminate].
        -- right. split; [exact Hone |]. rewrite Z.gtb_ltb in Hlevel.
           destruct (Z.ltb_spec (Int64 (DifficultyLevel header)) level);
             [discriminate | assumption].
    + rewrite andb_true_r.
      destruct (bool_decide_reflect
                  (PrimaryMiner header
                   = BytesToAddress (ReadMinerAddress statedb preMinerid)))
        as [Hprimary | Hprimary]; cbn [negb]; [| discriminate].
      intros Hlevel. exists level. split.
      * exists n, qr, preMinerid. fold header.
        split; [| split; [exact Hgate | split; [exact Hvalid |]]].
        -- unfold reaches_qr_gate. fold header. rewrite Hminer.
           repeat split; assumption.
        -- right. exact Hprimary.
      * destruct (Z.eqb_spec (Number header) 1) as [Hone | Hone].
        -- left. split; [exact Hone |].
           destruct (Z.eqb_spec (Int64 (DifficultyLevel header)) 0);
             [assumption | discriminate].
        -- right. split; [exact Hone |]. rewrite Z.gtb_ltb in Hlevel.
           destruct (Z.ltb_spec (Int64 (DifficultyLevel header)) level);
             [discriminate | assumption].
  - intros (level & Hreach & Hlevel).
    rewrite (ValidateMiner_at_level_check cc _ _ _ _ Hreach). cbv zeta.
    fold header. f_equal.
    destruct Hlevel as [[Hone Hzero] | [Hone Hge]].
    + rewrite Hone, Hzero. reflexivity.
    + apply Z.eqb_neq in Hone. rewrite Hone. rewrite Z.gtb_ltb.
      destruct (Z.ltb_spec (Int64 (DifficultyLevel header)) level);
        [lia | reflexivity].
Qed.

End MinerGates.

Section MinerSafety.
Context `{Externals} `{!MinerList} `{!Crypto} (cc : CommonConsts).

(** The QR gate panics only on a recovered and verified key for which
    [ToECDSAPub] returns nil: its slices are in range. *)
Lemma qr_gate_panics_inv (header : Header) (qr : Hash) :
  qr_gate header qr = Panics ->
  exists pub,
    Ecrecover qr (take 65 (MinerQrSignature header)) = (pub, None)
    /\ ToECDSAPub pub = None.
Proof.
  unfold qr_gate.
  destruct (Int64 (Number header) >? 1); [| discriminate].
  destruct (Nat.eqb_spec (length (MinerQrSignature header)) PreQrLength)
    as [Hlen | Hlen]; cbn [negb]; [| discriminate].
  destruct (qr_digest_segment _ Hlen) as (Hfrom & _ & _ & Hto).
  rewrite Hfrom, Hto.
  destruct (negb _); [discriminate |].
  assert (Hlen65 : (64 <=? length (take 65 (MinerQrSignature header)))%nat = true).
  { apply Nat.leb_le. rewrite length_take, Hlen. unfold PreQrLength. lia. }
  unfold VerifySig, slice_to. rewrite Hlen65.
  destruct (Ecrecover qr (take 65 (MinerQrSignature header)))
    as [pub [err |]]; [discriminate |].
  destruct (VerifySignature pub qr _); [| discriminate].
  destruct (ToECDSAPub pub) as [key |] eqn:Hkey.
  - destruct (bool_decide _); discriminate.
  - intros _. exists pub. split; reflexivity || exact Hkey.
Qed.

(** X14. With a rotation slot that is not zero, and when [ToECDSAPub]
    returns a key for whatever [Ecrecover] recovers from the leading 65
    bytes of the miner QR signature, [ValidateMiner] returns. With a
    rotation slot of zero it panics as soon as the block passes the timing
    check and the check of the registry. *)
Theorem ValidateMiner_panics (block parent : Block) (statedb : StateDB) :
  let header := Blk.Header_ block in
  (BlockSlot cc <> 0 ->
   (forall qr pub,
      Ecrecover qr (take 65 (MinerQrSignature header)) = (pub, None) ->
      ToECDSAPub pub <> None) ->
   exists verdict, ValidateMiner cc block parent statedb = Returns verdict)
  /\ (BlockSlot cc = 0 ->
      (Int64 (Time header - Blk.Time_ parent) <? i64 (BlockInterval cc)) = false ->
      fst (IsMiner statedb (Coinbase header) (ReadMinerNum statedb)
             (Number header)) = true ->
      ValidateMiner cc block parent statedb = Panics).
Proof.
  intros header. unfold ValidateMiner, eligibility_stage. cbv zeta.
  fold header. split.
  - intros Hslot Hkey.
    destruct (Int64 (Time header - Blk.Time_ parent) <? i64 (BlockInterval cc));
      [eauto |].
    destruct (IsMiner statedb _ _ _) as [isMiner flag].
    destruct isMiner; cbn [negb]; [| destruct (flag =? 1); eauto].
    unfold big_Div. apply Z.eqb_neq in Hslot. rewrite Hslot.
    destruct (expected_qr cc header parent) as [qr [err |]]; [eauto |].
    unfold qr_stage.
    destruct (qr_gate header qr) as [[err |] |] eqn:Hgate; [eauto | eauto |].
    apply qr_gate_panics_inv in Hgate. destruct Hgate as (pub & Hrec & Hnil).
    exfalso. exact (Hkey qr pub Hrec Hnil).
  - intros Hslot Htime Hminer. rewrite Htime.
    destruct (IsMiner statedb _ _ _) as [isMiner flag].
    simpl in Hminer. subst isMiner. cbn [negb].
    unfold big_Div. rewrite Hslot. reflexivity.
Qed.

(** X15. An accepted block whose number is above 1 and below [2^63]
    carries, behind 65 bytes of signature, exactly the expected QR value,
    and its coinbase is the address of the key recovered from that
    signature and that value. *)
Theorem ValidateMiner_accepted_signer (block parent : Block) (statedb : StateDB) :
  let header := Blk.Header_ block in
  ValidateMiner cc block parent statedb = Returns None ->
  1 < Number header < two63 ->
  exists qr pub key,
    expected_qr cc header parent = (qr, None)
    /\ MinerQrSignature header = take 65 (MinerQrSignature header) ++ qr
    /\ length (MinerQrSignature header) = PreQrLength
    /\ Ecrecover qr (take 65 (MinerQrSignature header)) = (pub, None)
    /\ ToECDSAPub pub = Some key
    /\ PubkeyToAddress key = Coinbase header.
Proof.
  intros header. unfold ValidateMiner, eligibility_stage. cbv zeta.
  fold header. intros Hres [Hlo Hhi].
  assert (Hnum : 1 < Int64 (Number header)).
  { rewrite Int64_small; [exact Hlo |].
    unfold is_int64. rewrite two63_eq in *. lia. }
  destruct (Int64 (Time header - Blk.Time_ parent) <? i64 (BlockInterval cc));
    [discriminate |].
  destruct (IsMiner statedb _ _ _) as [isMiner flag].
  destruct isMiner; cbn [negb] in Hres; [| destruct (flag =? 1); discriminate].
  destruct (big_Div _ _) as [n |]; [| discriminate].
  destruct (expected_qr cc header parent) as [qr [err |]]; [discriminate |].
  unfold qr_stage in Hres.
  destruct (qr_gate header qr) as [[err |] |] eqn:Hgate; try discriminate.
  clear Hres.
  destruct (Nat.eq_dec (length (MinerQrSignature header)) PreQrLength)
    as [Hlen | Hlen];
    [| rewrite (qr_gate_length _ _ Hnum Hlen) in Hgate; discriminate].
  rewrite (qr_gate_checked _ _ Hnum Hlen) in Hgate.
  destruct (bool_decide_reflect (drop 65 (MinerQrSignature header) = qr))
    as [Hdigest | Hdigest]; [| discriminate].
  destruct (VerifySig (take 65 (MinerQrSignature header)) qr (Coinbase header))
    as [[|] |] eqn:Hsig; try discriminate.
  destruct (VerifySig_true_inv _ _ _ Hsig) as (pub & key & Hrec & _ & Hkey & Haddr).
  exists qr, pub, key. repeat split; try assumption.
  rewrite <- Hdigest. symmetry. apply take_drop.
Qed.

(** X16. At block 1 the miner QR signature of the parent is not read: the
    verdict is the same behind a parent that carries another one. *)
Theorem ValidateMiner_block1_ignores_parent_signature (block parent : Block)
    (statedb : StateDB) (qrsig : bytes) :
  Number (Blk.Header_ block) = 1 ->
  ValidateMiner cc block (with_qr_signature parent qrsig) statedb
  = ValidateMiner cc block parent statedb.
Proof.
  intros Hone.
  assert (Hpre : forall p : Block,
             preQrSignature_of cc (Blk.Header_ block) p
             = GenesisMinerQrSignature cc).
  { intros p. unfold preQrSignature_of. rewrite Hone. reflexivity. }
  unfold ValidateMiner, eligibility_stage, qr_stage, level_gate, expected_qr.
  cbv zeta. rewrite !Hpre. reflexivity.
Qed.

(** X17. The errors of [ValidateMiner] are its own nine kinds, or the
    error that [CalQrOrIdNext] returned. *)
Theorem ValidateMiner_errors (block parent : Block) (statedb : StateDB)
    (err : error) :
  ValidateMiner cc block parent statedb = Returns (Some err) ->
  err = BlockTooFast \/ err = MinerPunished \/ err = MinerNotRegistered
  \/ err = QrLengthInvalid \/ err = QrMismatch \/ err = InvalidQrSignature
  \/ err = InvalidMiner
  \/ (exists have want, err = PrimaryMinerMismatch have want)
  \/ (exists have want, err = DifficultyLevelMismatch have want)
  \/ (exists upstream,
        snd (expected_qr cc (Blk.Header_ block) parent) = Some upstream
        /\ err = surfaced upstream).
Proof.
  unfold ValidateMiner, eligibility_stage. cbv zeta.
  destruct (Int64 _ <? i64 (BlockInterval cc)).
  { intros Hres. injection Hres as <-. auto. }
  destruct (IsMiner statedb _ _ _) as [isMiner flag].
  destruct isMiner; cbn [negb].
  - destruct (big_Div _ _) as [n |]; [| discriminate].
    destruct (expected_qr cc (Blk.Header_ block) parent) as [qr [upstream |]].
    + intros Hres. injection Hres as <-.
      do 9 right. exists upstream. split; reflexivity.
    + unfold qr_stage.
      destruct (qr_gate (Blk.Header_ block) qr) as [[err' |] |] eqn:Hgate;
        [| | discriminate].
      * intros Hres. injection Hres as <-.
        apply qr_gate_errors in Hgate. destruct Hgate as [-> | [-> | ->]]; auto 10.
      * intros Hres. injection Hres as Hlevel.
        apply level_gate_errors in Hlevel.
        destruct Hlevel as [-> | [Hprimary | Hlevel]]; auto 10.
  - destruct (flag =? 1); intros Hres; injection Hres as <-; auto.
Qed.

End MinerSafety.

Section SampleGates.

#[local] Existing Instance Sample.ext.
#[local] Existing Instance Sample.minerlist.
#[local] Existing Instance Sample.crypto.

Lemma ValidateMiner_not_a_miner_witness :
  ValidateMiner Sample.consts (Sample.block11_of Sample.miner_b Sample.miner_a)
    Sample.parent10 Sample.registry
  = Returns (Some MinerNotRegistered).
Proof.
  destruct (ValidateMiner_not_a_miner Sample.consts
              (Sample.block11_of Sample.miner_b Sample.miner_a)
              Sample.parent10 Sample.registry 0) as [_ Hother].
  - vm_compute. reflexivity.
  - vm_compute. reflexivity.
  - apply Hother. discriminate.
Defined.

Lemma ValidateMiner_miner_and_primary_witness :
  ValidateMiner Sample.consts (Sample.block11_of Sample.miner_a Sample.miner_b)
    Sample.parent10 Sample.registry
  = Returns (Some (PrimaryMinerMismatch Sample.miner_b Sample.miner_a)).
Proof.
  destruct (ValidateMiner_miner_and_primary Sample.consts
              (Sample.block11_of Sample.miner_a Sample.miner_b)
              Sample.parent10 Sample.registry 2 Sample.qr_head true 2 0)
    as (_ & Hprimary & _).
  - repeat split; vm_compute; reflexivity.
  - vm_compute. reflexivity.
  - vm_compute. reflexivity.
  - apply Hprimary.
    + reflexivity.
    + vm_compute. discriminate.
    + vm_compute. discriminate.
Defined.

Lemma ValidateMiner_accepted_signer_witness :
  exists qr pub key,
    expected_qr Sample.consts (header (Sample.block11 2 Sample.qr_head))
      Sample.parent10 = (qr, None)
    /\ MinerQrSignature (header (Sample.block11 2 Sample.qr_head))
       = take 65 (MinerQrSignature (header (Sample.block11 2 Sample.qr_head)))
         ++ qr
    /\ length (MinerQrSignature (header (Sample.block11 2 Sample.qr_head)))
       = PreQrLength
    /\ Ecrecover qr
         (take 65 (MinerQrSignature (header (Sample.block11 2 Sample.qr_head))))
       = (pub, None)
    /\ ToECDSAPub pub = Some key
    /\ PubkeyToAddress key = Sample.miner_a.
Proof.
  apply (ValidateMiner_accepted_signer Sample.consts
           (Sample.block11 2 Sample.qr_head) Sample.parent10 Sample.registry).
  - vm_compute. reflexivity.
  - vm_compute. split; reflexivity.
Defined.

Lemma ValidateMiner_block1_ignores_parent_signature_witness :
  ValidateMiner Sample.consts Sample.block1
    (with_qr_signature Sample.parent10 [x01; x02]) Sample.registry
  = ValidateMiner Sample.consts Sample.block1 Sample.parent10 Sample.registry.
Proof.
  apply ValidateMiner_block1_ignores_parent_signature. reflexivity.
Defined.

Lemma ValidateMiner_errors_witness :
  exists have want,
    ValidateMiner Sample.consts (Sample.block11 1 Sample.qr_head)
      Sample.parent10 Sample.registry
    = Returns (Some (DifficultyLevelMismatch have want)).
Proof.
  assert (Hrun : ValidateMiner Sample.consts (Sample.block11 1 Sample.qr_head)
                   Sample.parent10 Sample.registry
                 = Returns (Some (DifficultyLevelMismatch 1 2)))
    by (vm_compute; reflexivity).
  destruct (ValidateMiner_errors Sample.consts _ _ _ _ Hrun)
    as [He | [He | [He | [He | [He | [He | [He | [He | [He | He]]]]]]]]];
    try discriminate He.
  - destruct He as (have & want & He). discriminate He.
  - destruct He as (have & want & He). exists have, want.
    rewrite Hrun, He. reflexivity.
  - destruct He as (upstream & _ & He). destruct upstream; discriminate He.
Defined.

(** On the sample chain block 1 is accepted without a miner QR signature,
    and a rotation slot of zero makes the validator panic. *)
Example ValidateMiner_block1_sample :
  ValidateMiner Sample.consts Sample.block1 Sample.parent10 Sample.registry
  = Returns None
  /\ ValidateMiner
       {| BlockInterval := 5; BlockSlot := 0;
          GenesisMinerQrSignature := replicate PreQrLength x00 |}
       Sample.block1 Sample.parent10 Sample.registry
     = Panics.
Proof. split; vm_compute; reflexivity. Qed.

End SampleGates.

Lemma ValidateMiner_panics_witness :
  exists verdict,
    @ValidateMiner Sample.ext Sample.minerlist Sample.crypto Sample.consts
      (Sample.block11 2 Sample.qr_head) Sample.parent10 Sample.registry
    = Returns verdict.
Proof.
  destruct (@ValidateMiner_panics Sample.ext Sample.minerlist Sample.crypto
              Sample.consts (Sample.block11 2 Sample.qr_head) Sample.parent10
              Sample.registry) as [Hreturns _].
  apply Hreturns.
  - vm_compute. discriminate.
  - intros qr pub Hrec. vm_compute in Hrec. injection Hrec as <-.
    vm_compute. discriminate.
Defined.

Section GasLimitBelowTarget.
Context `{Externals} (gp : GasParams).

(** X18. Below the target, with [MinGasLimit] below the target and
    [contrib] at most [decay], the gas used by the parent does not count:
    the next limit is the parent's plus [decay], cut at the target; from
    twice the divisor on it is above the parent's. *)
Theorem CalcGasLimit_below_target_step (parent : Block) :
  GasLimitBoundDivisor <= Blk.GasLimit_ parent < two63 ->
  Blk.GasLimit_ parent < TargetGasLimit gp ->
  MinGasLimit gp < TargetGasLimit gp ->
  gas_contrib parent <= gas_decay parent ->
  CalcGasLimit gp parent
  = Z.min (Blk.GasLimit_ parent + gas_decay parent) (TargetGasLimit gp)
  /\ (2 * GasLimitBoundDivisor <= Blk.GasLimit_ parent ->
      Blk.GasLimit_ parent < CalcGasLimit gp parent).
Proof.
  intros Hrange Htarget Hmin Hcontrib.
  destruct (gas_limit_exact parent Hrange) as (Hd & Hlow & Hup).
  assert (Hstep : CalcGasLimit gp parent
                  = Z.min (Blk.GasLimit_ parent + gas_decay parent)
                      (TargetGasLimit gp)).
  { unfold CalcGasLimit. cbv zeta. rewrite Hlow, Hup, Z.gtb_ltb.
    destruct (Z.ltb_spec (Blk.GasLimit_ parent - gas_decay parent
                          + gas_contrib parent) (MinGasLimit gp));
      repeat match goal with
             | |- context [if ?a <? ?b then _ else _] =>
                 destruct (Z.ltb_spec a b)
             end; lia. }
  split; [exact Hstep |].
  intros Hbig. rewrite Hstep.
  destruct Hrange as [Hlo Hhi]. rewrite two63_eq in Hhi.
  destruct (gas_decay_exact parent Hlo ltac:(rewrite two64_eq; lia))
    as [Hdecay _].
  unfold GasLimitBoundDivisor in *.
  assert (Hq : 2 <= Blk.GasLimit_ parent / 1024)
    by (apply Z.div_le_lower_bound; lia).
  lia.
Qed.

End GasLimitBelowTarget.

Lemma CalcGasLimit_below_target_step_witness :
  CalcGasLimit default_gas_params (Sample.gas_block 4000000 1000000)
  = Z.min (4000000 + gas_decay (Sample.gas_block 4000000 1000000)) 4712388
  /\ 4000000 < CalcGasLimit default_gas_params (Sample.gas_block 4000000 1000000).
Proof.
  destruct (CalcGasLimit_below_target_step default_gas_params
              (Sample.gas_block 4000000 1000000)) as [Hstep Hrise].
  - vm_compute. split; [discriminate | reflexivity].
  - vm_compute. reflexivity.
  - vm_compute. reflexivity.
  - vm_compute. discriminate.
  - split; [exact Hstep |]. apply Hrise. vm_compute. discriminate.
Defined.
